(** * MintFlowAI: the contract-action adapter of [AuctionAgent.py]

    The three auction actions [start_nft_auction], [bid_on_nft] and
    [finalize_nft_auction] marshal their arguments into one call of the
    wallet's [invoke_contract], wait for it and format a result string; a
    [try]/[except Exception] around each body turns every exception into an
    error string.

    The embedding follows the Python text line by line:
    - a Python [float] is an IEEE 754 binary64 number, here the [spec_float]
      of the Standard Library with [prec = 53] and [emax = 1024];
    - a Python [int] is a [Z], a [str] a [string], a [dict] with string keys
      a [gmap string _];
    - the wallet is an external object: its methods are functions on an
      abstract world state that return a value or raise;
    - an action is a computation that threads the world, may raise, and logs
      every call it makes on the wallet. *)

From Stdlib Require Import ZArith String Ascii List Lia Bool.
From Stdlib Require Import QArith Qround Qabs Qpower Lqa DecimalString.
From Stdlib Require Import Floats.SpecFloat.
From stdpp Require Import base gmap strings.

Open Scope Z_scope.

(* ===================================================================== *)
(** * The Python runtime the actions rely on *)
(* ===================================================================== *)

Module Py.

(** An exception object: an instance of [Exception], the class the three
    handlers name.  [exc_str e] is what [str(e)] gives. *)
Record PyExc := { exc_type : string; exc_str : string }.

(** What evaluating an expression ends in. *)
Inductive outcome (A : Type) : Type :=
| Returns (a : A)
| Raises (e : PyExc).
Arguments Returns {A} a.
Arguments Raises {A} e.

Definition OverflowError (msg : string) : PyExc :=
  {| exc_type := "OverflowError"; exc_str := msg |}.
Definition ValueError (msg : string) : PyExc :=
  {| exc_type := "ValueError"; exc_str := msg |}.
Definition AttributeError (msg : string) : PyExc :=
  {| exc_type := "AttributeError"; exc_str := msg |}.

(** The values the argument dictionaries hold. *)
Inductive PyVal :=
| PyStr (s : string)
| PyInt (n : Z).

(** The newline of the f-strings. *)
Definition nl : string := String (ascii_of_nat 10) EmptyString.

(** [format(n, "")] for an [int]: its decimal digits, [-] in front of a
    negative one. *)
Definition format_int (n : Z) : string := NilZero.string_of_int (Z.to_int n).

(** [sub in s] on strings. *)
Fixpoint contains (sub s : string) : bool :=
  String.prefix sub s ||
  match s with
  | EmptyString => false
  | String _ s' => contains sub s'
  end.

End Py.
Export Py.

(* ===================================================================== *)
(** * Python floats: IEEE 754 binary64 *)
(* ===================================================================== *)

Module PyFloat.

Definition prec : Z := 53.
Definition emax : Z := 1024.

Abbreviation float := spec_float.

(** A float object holds a number of the format. *)
Definition valid (x : float) : bool := valid_binary prec emax x.

(** [float(n)] as the arithmetic operators apply it to an [int] operand
    ([PyLong_AsDouble]): the nearest float, [OverflowError] beyond the
    range. *)
Definition of_int (n : Z) : outcome float :=
  match binary_normalize prec emax n 0 false with
  | S754_infinity _ => Raises (OverflowError "int too large to convert to float")
  | y => Returns y
  end.

(** [x * n] for a float [x] and an int [n] ([float_mul]): [n] is converted,
    then the two doubles are multiplied, rounding to nearest, ties to even.
    An overflowing product is an infinity, not an exception. *)
Definition mul_int (x : float) (n : Z) : outcome float :=
  match of_int n with
  | Returns y => Returns (SFmul prec emax x y)
  | Raises e => Raises e
  end.

(** [int(x)] ([float.__trunc__], [PyLong_FromDouble]): the integral part,
    the fraction dropped; an infinity and a NaN raise. *)
Definition to_int (x : float) : outcome Z :=
  match x with
  | S754_nan => Raises (ValueError "cannot convert float NaN to integer")
  | S754_infinity _ => Raises (OverflowError "cannot convert float infinity to integer")
  | S754_zero _ => Returns 0
  | S754_finite s m e => Returns (cond_Zopp s (Z.shiftl (Zpos m) e))
  end.

(** The number a float stands for; [0] for the three that stand for
    none. *)
Definition to_Q (x : float) : Q :=
  match x with
  | S754_finite s m e => (inject_Z (cond_Zopp s (Zpos m)) * 2 ^ e)%Q
  | _ => 0%Q
  end.

(** [x >= 0] on floats: false on a NaN. *)
Definition nonneg (x : float) : bool :=
  match x with
  | S754_zero _ => true
  | S754_infinity s | S754_finite s _ _ => negb s
  | S754_nan => false
  end.

(** [x <= 0] on floats: false on a NaN. *)
Definition nonpos (x : float) : bool :=
  match x with
  | S754_zero _ => true
  | S754_infinity s | S754_finite s _ _ => s
  | S754_nan => false
  end.

(** A finite float whose binary exponent is at most [k]: for a float of
    the format, a magnitude below [2^(k+53)]. *)
Definition exponent_at_most (k : Z) (x : float) : bool :=
  match x with
  | S754_zero _ => true
  | S754_finite _ _ e => e <=? k
  | _ => false
  end.

(** The mantissa of [10**18] as a float: [10^18 = 5^18 * 2^11 * 2^7]. *)
Definition ten18_mantissa : positive := 7812500000000000.

(** The exact product of a finite float with [10^18] has no more than 53
    significant bits: the bits the float product would drop are all zero. *)
Definition product_fits (x : float) : bool :=
  match x with
  | S754_finite _ m e =>
      Z.pos (m * ten18_mantissa) mod 2 ^ (Z.pos (digits2_pos (m * ten18_mantissa)) - 53) =? 0
  | S754_zero _ => true
  | _ => false
  end.

(** ** [repr] of a float

    An f-string field [{x}] of a float is [repr(x)]: the shortest string of
    decimal digits that reads back as [x] ([float_repr_style] is [short]),
    laid out with an exponent when the decimal point falls outside
    [-4 < decpt <= 16]. *)

(** Half-way points to the neighbouring floats of [m * 2^e]. *)
Definition upper_half (m : positive) (e : Z) : Q :=
  (inject_Z (2 * Zpos m + 1) * 2 ^ (e - 1))%Q.
Definition lower_half (m : positive) (e : Z) : Q :=
  if (Zpos m =? 2 ^ 52) && (-1074 <? e)
  then (inject_Z (4 * Zpos m - 1) * 2 ^ (e - 2))%Q
  else (inject_Z (2 * Zpos m - 1) * 2 ^ (e - 1))%Q.

(** Does the decimal [d] read back as the float [m * 2^e]? *)
Definition reads_back (m : positive) (e : Z) (d : Q) : bool :=
  match (lower_half m e ?= d)%Q, (d ?= upper_half m e)%Q with
  | Lt, Lt => true
  | Eq, Lt | Lt, Eq => Z.even (Zpos m)
  | _, _ => false
  end.

(** [k] with [10^(k-1) <= x < 10^k], for [x > 0] above [10^-400]. *)
Definition decimal_point (x : Q) : Z :=
  Z.of_nat (String.length (format_int (Qfloor (x * 10 ^ 400)))) - 400.

(** The shortest decimal [c * 10^(k-n)] that reads back, trying
    [n = 1, 2, ...] digits; of two candidates the nearer one. *)
Fixpoint shortest (fuel : nat) (n : Z) (m : positive) (e k : Z) : Z * Z :=
  let x := (inject_Z (Zpos m) * 2 ^ e)%Q in
  let u := (10 ^ (k - n))%Q in
  let lo := Qfloor (x / u) in
  let hi := lo + 1 in
  let ok c := reads_back m e (inject_Z c * u) in
  let nearer :=
    match (x - inject_Z lo * u ?= inject_Z hi * u - x)%Q with
    | Gt => hi
    | Lt => lo
    | Eq => if Z.even lo then lo else hi
    end in
  match fuel with
  | O => (nearer, k - n)
  | S fuel' =>
      match ok lo, ok hi with
      | true, true => (nearer, k - n)
      | true, false => (lo, k - n)
      | false, true => (hi, k - n)
      | false, false => shortest fuel' (n + 1) m e k
      end
  end.

Fixpoint strip_zeros_rev (s : list ascii) : list ascii :=
  match s with
  | "0"%char :: s' => strip_zeros_rev s'
  | _ => s
  end.

Definition strip_zeros (s : string) : string :=
  string_of_list_ascii (rev (strip_zeros_rev (rev (list_ascii_of_string s)))).

Fixpoint zeros (n : nat) : string :=
  match n with O => "" | S n' => String "0" (zeros n') end.

(** [repr] of a positive finite float: digits, then the layout of
    [format_float_short] for the code ['r']. *)
Definition repr_pos (m : positive) (e : Z) : string :=
  let x := (inject_Z (Zpos m) * 2 ^ e)%Q in
  let '(c, q) := shortest 16 1 m e (decimal_point x) in
  let all := format_int c in
  let decpt := q + Z.of_nat (String.length all) in
  let ds := strip_zeros all in
  let len := Z.of_nat (String.length ds) in
  if (decpt <=? -4) || (16 <? decpt) then
    let ex := decpt - 1 in
    let mant :=
      match ds with
      | String d EmptyString => ds
      | String d rest => String d ("." +:+ rest)
      | EmptyString => ds
      end in
    let exs := format_int (Z.abs ex) in
    mant +:+ "e" +:+ (if ex <? 0 then "-" else "+")
         +:+ (if Z.abs ex <? 10 then "0" else "") +:+ exs
  else if decpt <=? 0 then
    "0." +:+ zeros (Z.to_nat (- decpt)) +:+ ds
  else if len <=? decpt then
    ds +:+ zeros (Z.to_nat (decpt - len)) +:+ ".0"
  else
    substring 0 (Z.to_nat decpt) ds +:+ "." ++
    substring (Z.to_nat decpt) (Z.to_nat (len - decpt)) ds.

Definition repr (x : float) : string :=
  match x with
  | S754_nan => "nan"
  | S754_infinity s => if s then "-inf" else "inf"
  | S754_zero s => if s then "-0.0" else "0.0"
  | S754_finite s m e => (if s then "-" else "") +:+ repr_pos m e
  end.

End PyFloat.

(* ===================================================================== *)
(** * The wallet capability and the calls made on it *)
(* ===================================================================== *)

Section Adapter.

(** The state of everything outside the script (chain, network, the
    wallet's own bookkeeping), and the type of the ABI table, which the
    script imports from its [constant] module. *)
Variable World : Type.
Variable Abi : Type.
Variable AUCTION_ABI : Abi.

(** [AuctionAgent.py], line 33. *)
Definition AUCTION_CONTRACT_ADDRESS : string :=
  "0xA0f0b923532fdbcd85A11ccAED1362691C7931fA".

(** The keyword arguments of one [wallet.invoke_contract(...)] call.
    [value] is [None] when the keyword is not passed. *)
Record ContractInvocation := {
  contract_address : string;
  method : string;
  args : gmap string PyVal;
  abi : Abi;
  value : option Z
}.

(** The objects the wallet hands back.  Reading an attribute gives its
    value or raises ([AttributeError] on an object without it); the two
    transaction fields are given as the text an f-string field makes of
    them. *)
Record Transaction := {
  transaction_hash : outcome string;
  transaction_link : outcome string
}.

Record SettledInvocation := {
  transaction : outcome Transaction
}.

Record PendingInvocation := {
  wait : World -> outcome SettledInvocation * World
}.

Record Wallet := {
  invoke_contract : ContractInvocation -> World -> outcome PendingInvocation * World
}.

(** One call on the wallet, with the exception it raised, if any. *)
Inductive Event :=
| Invoked (inv : ContractInvocation) (raised : option PyExc)
| Waited (raised : option PyExc).

(** A run of a piece of the script: how it ended, the world it left, the
    calls it made on the wallet, in order. *)
Record Run (A : Type) := {
  result : outcome A;
  final : World;
  calls : list Event
}.
Arguments result {A} _.
Arguments final {A} _.
Arguments calls {A} _.

Definition M (A : Type) : Type := World -> Run A.

Definition ret {A} (a : A) : M A :=
  fun w => {| result := Returns a; final := w; calls := [] |}.

Definition bind {A B} (m : M A) (k : A -> M B) : M B :=
  fun w =>
    let r := m w in
    match result r with
    | Returns a =>
        let r' := k a (final r) in
        {| result := result r'; final := final r'; calls := calls r ++ calls r' |}
    | Raises e => {| result := Raises e; final := final r; calls := calls r |}
    end.

(** An expression that touches nothing outside. *)
Definition eval {A} (o : outcome A) : M A :=
  fun w => {| result := o; final := w; calls := [] |}.

(** [try: body  except Exception as e: handler(e)]. *)
Definition try_except {A} (body : M A) (handler : PyExc -> M A) : M A :=
  fun w =>
    let r := body w in
    match result r with
    | Returns a => r
    | Raises e =>
        let r' := handler e (final r) in
        {| result := result r'; final := final r'; calls := calls r ++ calls r' |}
    end.

Definition raised_of {A} (o : outcome A) : option PyExc :=
  match o with
  | Returns _ => None
  | Raises e => Some e
  end.

(** [wallet.invoke_contract(...)] and [pending.wait()]. *)
Definition call_invoke_contract (wallet : Wallet) (inv : ContractInvocation)
  : M PendingInvocation :=
  fun w =>
    let '(o, w') := invoke_contract wallet inv w in
    {| result := o; final := w'; calls := [Invoked inv (raised_of o)] |}.

Definition call_wait (p : PendingInvocation) : M SettledInvocation :=
  fun w =>
    let '(o, w') := wait p w in
    {| result := o; final := w'; calls := [Waited (raised_of o)] |}.

(** [obj.transaction.transaction_hash] and [obj.transaction.transaction_link]. *)
Definition get_transaction_hash (s : SettledInvocation) : outcome string :=
  match transaction s with
  | Returns t => transaction_hash t
  | Raises e => Raises e
  end.

Definition get_transaction_link (s : SettledInvocation) : outcome string :=
  match transaction s with
  | Returns t => transaction_link t
  | Raises e => Raises e
  end.

Notation "x <- m ;; k" := (bind m (fun x => k))
  (at level 100, m at next level, right associativity).

(* =================================================================== *)
(** * The three actions ([AuctionAgent.py], lines 95-204) *)
(* =================================================================== *)

Definition start_nft_auction (wallet : Wallet) (nft_contract_address : string)
    (token_id : Z) (starting_price : PyFloat.float) (duration : Z) : M string :=
  try_except
    (product <- eval (PyFloat.mul_int starting_price (10 ^ 18)) ;;
     starting_price_wei <- eval (PyFloat.to_int product) ;;
     let auction_args : gmap string PyVal :=
       <["duration" := PyInt duration]>
         (<["startingPrice" := PyInt starting_price_wei]>
           (<["tokenId" := PyInt token_id]>
             (<["nftContract" := PyStr nft_contract_address]> ∅))) in
     pending <- call_invoke_contract wallet
                  {| contract_address := AUCTION_CONTRACT_ADDRESS;
                     method := "createAuction";
                     args := auction_args;
                     abi := AUCTION_ABI;
                     value := None |} ;;
     auction_creation <- call_wait pending ;;
     hash <- eval (get_transaction_hash auction_creation) ;;
     link <- eval (get_transaction_link auction_creation) ;;
     ret ("Auction created successfully for token ID " +:+ format_int token_id +:+ "." +:+ nl +:+
          "NFT Contract: " +:+ nft_contract_address +:+ nl +:+
          "Starting price: " +:+ PyFloat.repr starting_price +:+ " ETH" +:+ nl +:+
          "Duration: " +:+ format_int duration +:+ " seconds" +:+ nl +:+
          "Transaction hash: " +:+ hash +:+ nl +:+
          "Transaction link: " +:+ link))
    (fun e => ret ("Error creating auction: " +:+ exc_str e)).

Definition bid_on_nft (wallet : Wallet) (token_id : Z) (bid_amount : PyFloat.float)
  : M string :=
  try_except
    (let bid_args : gmap string PyVal := <["tokenId" := PyInt token_id]> ∅ in
     product <- eval (PyFloat.mul_int bid_amount (10 ^ 18)) ;;
     bid_value <- eval (PyFloat.to_int product) ;;
     pending <- call_invoke_contract wallet
                  {| contract_address := AUCTION_CONTRACT_ADDRESS;
                     method := "bid";
                     args := bid_args;
                     abi := AUCTION_ABI;
                     value := Some bid_value |} ;;
     bid_result <- call_wait pending ;;
     hash <- eval (get_transaction_hash bid_result) ;;
     link <- eval (get_transaction_link bid_result) ;;
     ret ("Bid placed on token ID " +:+ format_int token_id +:+ " with amount " +:+
          PyFloat.repr bid_amount +:+ " ETH." +:+ nl +:+
          "Transaction hash: " +:+ hash +:+ nl +:+
          "Transaction link: " +:+ link))
    (fun e => ret ("Error placing bid: " +:+ exc_str e)).

Definition finalize_nft_auction (wallet : Wallet) (token_id : Z) : M string :=
  try_except
    (let finalize_args : gmap string PyVal := <["tokenId" := PyInt token_id]> ∅ in
     pending <- call_invoke_contract wallet
                  {| contract_address := AUCTION_CONTRACT_ADDRESS;
                     method := "finalizeAuction";
                     args := finalize_args;
                     abi := AUCTION_ABI;
                     value := None |} ;;
     finalize_result <- call_wait pending ;;
     hash <- eval (get_transaction_hash finalize_result) ;;
     link <- eval (get_transaction_link finalize_result) ;;
     ret ("Auction finalized for token ID " +:+ format_int token_id +:+ "." +:+ nl +:+
          "Transaction hash: " +:+ hash +:+ nl +:+
          "Transaction link: " +:+ link))
    (fun e => ret ("Error finalizing auction: " +:+ exc_str e)).

End Adapter.

Arguments Build_ContractInvocation {Abi}.
Arguments contract_address {Abi}.
Arguments method {Abi}.
Arguments args {Abi}.
Arguments abi {Abi}.
Arguments value {Abi}.
Arguments wait {World}.
Arguments invoke_contract {World Abi}.
Arguments Invoked {Abi}.
Arguments Waited {Abi}.
Arguments result {World Abi A}.
Arguments final {World Abi A}.
Arguments calls {World Abi A}.
Arguments start_nft_auction {World Abi}.
Arguments bid_on_nft {World Abi}.
Arguments finalize_nft_auction {World Abi}.

(** The invocations a run submitted, in order. *)
Fixpoint submitted {Abi} (evs : list (Event Abi)) : list (ContractInvocation Abi) :=
  match evs with
  | [] => []
  | Invoked inv _ :: evs' => inv :: submitted evs'
  | Waited _ :: evs' => submitted evs'
  end.

(* ===================================================================== *)
(** * Stubbed wallets *)
(* ===================================================================== *)

Module Stub.
Section Stub.

Context {World Abi : Type}.

(** A settled invocation that reports a hash and a link. *)
Definition settled (h l : string) : SettledInvocation :=
  {| transaction := Returns {| transaction_hash := Returns h; transaction_link := Returns l |} |}.

(** Every submission settles with the same hash and link. *)
Definition succeeding (h l : string) : Wallet World Abi :=
  {| invoke_contract := fun _ w =>
       (Returns {| wait := fun w' => (Returns (settled h l), w') |}, w) |}.

(** The submission raises. *)
Definition rejecting (e : PyExc) : Wallet World Abi :=
  {| invoke_contract := fun _ w => (Raises e, w) |}.

(** The submission goes through, the wait raises. *)
Definition timing_out (e : PyExc) : Wallet World Abi :=
  {| invoke_contract := fun _ w =>
       (Returns {| wait := fun w' => (Raises e, w') |}, w) |}.

(** The invocation settles, but the settled object has no transaction
    hash: reading it raises. *)
Definition hashless (e : PyExc) (l : string) : Wallet World Abi :=
  {| invoke_contract := fun _ w =>
       (Returns {| wait := fun w' =>
          (Returns {| transaction :=
                        Returns {| transaction_hash := Raises e;
                                   transaction_link := Returns l |} |}, w') |}, w) |}.

End Stub.


End Stub.

(** Float literals of the examples, as the parser reads them. *)
Module Lit.
(** [0.1] = [0x1.999999999999ap-4] *)
Definition f0_1 : PyFloat.float := S754_finite false 7205759403792794 (-56).
(** [0.5] *)
Definition f0_5 : PyFloat.float := S754_finite false 4503599627370496 (-53).
(** [1.000244140625] = [4097/4096], exact *)
Definition f4097_4096 : PyFloat.float := S754_finite false 4504699138998272 (-52).
(** [2.0 ** 1000] *)
Definition f2p1000 : PyFloat.float := S754_finite false 4503599627370496 948.
(** [-0.5] *)
Definition fm0_5 : PyFloat.float := S754_finite true 4503599627370496 (-53).
(** [-(2.0 ** 1000)] *)
Definition fm2p1000 : PyFloat.float := S754_finite true 4503599627370496 948.
End Lit.

(** The wallets and exceptions of the worked examples. *)
Module Demo.

(** A wallet that refuses every submission for lack of funds. *)
Definition insufficient_funds : PyExc :=
  {| exc_type := "ApiError"; exc_str := "insufficient funds" |}.

(** What reading [transaction_hash] off [None] raises. *)
Definition no_transaction_hash : PyExc :=
  AttributeError "'NoneType' object has no attribute 'transaction_hash'".

Definition wait_timed_out : PyExc :=
  {| exc_type := "TimeoutError"; exc_str := "Contract Invocation timed out" |}.

Definition succeeding : Wallet unit unit := Stub.succeeding "0xabc" "link".
Definition rejecting : Wallet unit unit := Stub.rejecting insufficient_funds.
Definition timing_out : Wallet unit unit := Stub.timing_out wait_timed_out.
Definition hashless : Wallet unit unit := Stub.hashless no_transaction_hash "link".

End Demo.

(* ===================================================================== *)
(** * What each action does, spelled out *)
(* ===================================================================== *)

(** [int(x * 10**18)], the conversion both [start_nft_auction] and
    [bid_on_nft] apply to their ETH amount. *)
Definition wei_of (x : PyFloat.float) : outcome Z :=
  match PyFloat.mul_int x (10 ^ 18) with
  | Returns product => PyFloat.to_int product
  | Raises e => Raises e
  end.

Section Shape.

Context {World Abi : Type}.
Variable AUCTION_ABI : Abi.

(** The invocation records the three actions build. *)
Definition create_auction_invocation (nft_contract_address : string)
    (token_id wei duration : Z) : ContractInvocation Abi :=
  {| contract_address := AUCTION_CONTRACT_ADDRESS;
     method := "createAuction";
     args := <["duration" := PyInt duration]>
               (<["startingPrice" := PyInt wei]>
                 (<["tokenId" := PyInt token_id]>
                   (<["nftContract" := PyStr nft_contract_address]> ∅)));
     abi := AUCTION_ABI;
     value := None |}.

Definition bid_invocation (token_id wei : Z) : ContractInvocation Abi :=
  {| contract_address := AUCTION_CONTRACT_ADDRESS;
     method := "bid";
     args := {[ "tokenId" := PyInt token_id ]};
     abi := AUCTION_ABI;
     value := Some wei |}.

Definition finalize_invocation (token_id : Z) : ContractInvocation Abi :=
  {| contract_address := AUCTION_CONTRACT_ADDRESS;
     method := "finalizeAuction";
     args := {[ "tokenId" := PyInt token_id ]};
     abi := AUCTION_ABI;
     value := None |}.

(** The success strings, as functions of the hash and the link. *)
Definition auction_created (nft_contract_address : string) (token_id : Z)
    (starting_price : PyFloat.float) (duration : Z) (hash link : string) : string :=
  "Auction created successfully for token ID " +:+ format_int token_id +:+ "." +:+ nl +:+
  "NFT Contract: " +:+ nft_contract_address +:+ nl +:+
  "Starting price: " +:+ PyFloat.repr starting_price +:+ " ETH" +:+ nl +:+
  "Duration: " +:+ format_int duration +:+ " seconds" +:+ nl +:+
  "Transaction hash: " +:+ hash +:+ nl +:+
  "Transaction link: " +:+ link.

Definition bid_placed (token_id : Z) (bid_amount : PyFloat.float)
    (hash link : string) : string :=
  "Bid placed on token ID " +:+ format_int token_id +:+ " with amount " +:+
  PyFloat.repr bid_amount +:+ " ETH." +:+ nl +:+
  "Transaction hash: " +:+ hash +:+ nl +:+
  "Transaction link: " +:+ link.

Definition auction_finalized (token_id : Z) (hash link : string) : string :=
  "Auction finalized for token ID " +:+ format_int token_id +:+ "." +:+ nl +:+
  "Transaction hash: " +:+ hash +:+ nl +:+
  "Transaction link: " +:+ link.

(** The common tail of the three bodies under their handler, as a case
    analysis on what the wallet answers: submit, wait, read the hash and
    the link, format; the first exception ends it with the error string. *)
Definition submit_and_report (wallet : Wallet World Abi) (inv : ContractInvocation Abi)
    (ok : string -> string -> string) (pre : string) (w : World)
  : Run World Abi string :=
  match invoke_contract wallet inv w with
  | (Raises e, w1) =>
      {| result := Returns (pre +:+ exc_str e); final := w1;
         calls := [Invoked inv (Some e)] |}
  | (Returns pending, w1) =>
      match wait pending w1 with
      | (Raises e, w2) =>
          {| result := Returns (pre +:+ exc_str e); final := w2;
             calls := [Invoked inv None; Waited (Some e)] |}
      | (Returns settled, w2) =>
          {| result :=
               match get_transaction_hash settled with
               | Raises e => Returns (pre +:+ exc_str e)
               | Returns hash =>
                   match get_transaction_link settled with
                   | Raises e => Returns (pre +:+ exc_str e)
                   | Returns link => Returns (ok hash link)
                   end
               end;
             final := w2;
             calls := [Invoked inv None; Waited None] |}
      end
  end.

End Shape.

(* ===================================================================== *)
(** * Vocabulary of the properties *)
(* ===================================================================== *)





(** The wei value as the specification words it:
    [floor(startingPriceEth * 10^18)], on the number the float stands
    for. *)
Definition spec_wei (x : PyFloat.float) : Z :=
  Qfloor (PyFloat.to_Q x * 10 ^ 18)%Q.

(* ===================================================================== *)
(** * The console front end ([AuctionAgent.py], lines 255-274) *)
(* ===================================================================== *)

Module Console.

(** What the script writes: a [print]ed line, or the prompt of [input]. *)
Inductive Output :=
| Printed (line : string)
| Prompted (prompt : string).

Definition KeyError (key : string) : PyExc :=
  {| exc_type := "KeyError"; exc_str := "'" +:+ key +:+ "'" |}.
Definition IndexError : PyExc :=
  {| exc_type := "IndexError"; exc_str := "list index out of range" |}.
Definition EOFError : PyExc :=
  {| exc_type := "EOFError"; exc_str := "EOF when reading a line" |}.

(** A message of the agent; [content] is the text [print] shows for its
    [.content]. *)
Record Message := { content : string }.

(** A chunk of the stream: a dict from node names to dicts of lists of
    messages. *)
Abbreviation Chunk := (gmap string (gmap string (list Message))).

(** [chunk[node]["messages"][0].content] *)
Definition first_content (chunk : Chunk) (node : string) : outcome string :=
  match chunk !! node with
  | None => Raises (KeyError node)
  | Some entry =>
      match entry !! "messages" with
      | None => Raises (KeyError "messages")
      | Some [] => Raises IndexError
      | Some (m :: _) => Returns (content m)
      end
  end.

Definition separator : string := "-------------------".

(** The body of the [for] loop of [ask_agent], lines 261-265: what it
    prints and how it ends. *)
Definition show_chunk (chunk : Chunk) : list Output * outcome unit :=
  match chunk !! "agent" with
  | Some _ =>
      match first_content chunk "agent" with
      | Returns text => ([Printed text; Printed separator], Returns tt)
      | Raises e => ([], Raises e)
      end
  | None =>
      match chunk !! "tools" with
      | Some _ =>
          match first_content chunk "tools" with
          | Returns text => ([Printed text; Printed separator], Returns tt)
          | Raises e => ([], Raises e)
          end
      | None => ([Printed separator], Returns tt)
      end
  end.

(** [s.lower()], on text of code points below 256: the capital letters
    [A-Z], [À-Ö] and [Ø-Þ] move 32 places up, everything else stays. *)
Definition lower_char (c : ascii) : ascii :=
  let n := N_of_ascii c in
  if ((65 <=? n) && (n <=? 90) || (192 <=? n) && (n <=? 214) ||
      (216 <=? n) && (n <=? 222))%N
  then ascii_of_N (n + 32)
  else c.

Fixpoint lower (s : string) : string :=
  match s with
  | EmptyString => EmptyString
  | String c s' => String (lower_char c) (lower s')
  end.

Section Agent.

(** The agent behind [agent_executor]: its state, and what a call of
    [stream] goes through.  The generator is given by what it yields, each
    chunk with the state of the agent at that point, and how it ends: by
    exhaustion or by an exception. *)
Variable AgentWorld : Type.

Record StreamRequest := {
  messages : list string;
  thread_id : string
}.

Record Stream := {
  yields : list (Chunk * AgentWorld);
  ending : option PyExc;
  after : AgentWorld
}.

Variable stream : StreamRequest -> AgentWorld -> Stream.

(** The [for] loop over the chunks. *)
Fixpoint show_chunks (ys : list (Chunk * AgentWorld)) (ending : option PyExc)
    (after : AgentWorld) : list Output * outcome unit * AgentWorld :=
  match ys with
  | [] => ([], match ending with Some e => Raises e | None => Returns tt end, after)
  | (chunk, aw) :: ys' =>
      match show_chunk chunk with
      | (out, Returns _) =>
          let '(out', r, aw') := show_chunks ys' ending after in
          (out ++ out', r, aw')
      | (out, Raises e) => (out, Raises e, aw)
      end
  end.

(** [ask_agent], lines 256-265. *)
Definition ask_agent (question : string) (aw : AgentWorld)
  : list Output * outcome unit * AgentWorld :=
  let s := stream {| messages := [question]; thread_id := "my_first_agent" |} aw in
  show_chunks (yields s) (ending s) (after s).

(** A run of the read-eval-print loop: what was written, how the loop
    ended, the questions passed to the agent, the lines of standard input
    left unread, and the agent's state. *)
Record ReplRun := {
  printed : list Output;
  ended : outcome unit;
  asked : list string;
  unread : list string;
  agent_world : AgentWorld
}.

Definition prompt : string := nl +:+ "You: ".

(** The [while True] loop, lines 270-274, over the lines standard input
    holds; [input] raises [EOFError] when none is left. *)
Fixpoint repl (stdin : list string) (aw : AgentWorld) : ReplRun :=
  match stdin with
  | [] =>
      {| printed := [Prompted prompt]; ended := Raises EOFError;
         asked := []; unread := []; agent_world := aw |}
  | user_input :: rest =>
      if String.eqb (lower user_input) "exit" then
        {| printed := [Prompted prompt]; ended := Returns tt;
           asked := []; unread := rest; agent_world := aw |}
      else
        match ask_agent user_input aw with
        | (out, Raises e, aw') =>
            {| printed := Prompted prompt :: out; ended := Raises e;
               asked := [user_input]; unread := rest; agent_world := aw' |}
        | (out, Returns _, aw') =>
            let k := repl rest aw' in
            {| printed := Prompted prompt :: out ++ printed k; ended := ended k;
               asked := user_input :: asked k; unread := unread k;
               agent_world := agent_world k |}
        end
  end.

(** The script run as a program, lines 268-274. *)
Definition main (stdin : list string) (aw : AgentWorld) : ReplRun :=
  let k := repl stdin aw in
  {| printed := Printed "Agent is ready! Type 'exit' to quit." :: printed k;
     ended := ended k; asked := asked k; unread := unread k;
     agent_world := agent_world k |}.

End Agent.

Arguments yields {AgentWorld}.
Arguments ending {AgentWorld}.
Arguments after {AgentWorld}.
Arguments Build_Stream {AgentWorld}.
Arguments printed {AgentWorld}.
Arguments ended {AgentWorld}.
Arguments asked {AgentWorld}.
Arguments unread {AgentWorld}.
Arguments agent_world {AgentWorld}.
Arguments show_chunks {AgentWorld}.
Arguments ask_agent {AgentWorld}.
Arguments repl {AgentWorld}.
Arguments main {AgentWorld}.

(** A chunk the loop body can print: its [agent] entry, or else its
    [tools] entry, has a first message. *)
Definition readable (chunk : Chunk) : Prop :=
  exists out, show_chunk chunk = (out, Returns tt).

(** The number of [input] prompts among what was written. *)
Fixpoint prompts (out : list Output) : nat :=
  match out with
  | [] => 0
  | Prompted _ :: out' => S (prompts out')
  | Printed _ :: out' => prompts out'
  end.

(** An agent that answers every question with one [agent] chunk echoing
    it, over a counter of the questions seen. *)
Definition echo (req : StreamRequest) (n : nat) : Stream nat :=
  {| yields :=
       [({[ "agent" := {[ "messages" := map (fun q => {| content := q |}) (messages req) ]} ]},
         S n)];
     ending := None;
     after := S n |}.

(** An agent whose second chunk carries an empty list of messages. *)
Definition stalling (req : StreamRequest) (n : nat) : Stream nat :=
  {| yields :=
       [({[ "agent" := {[ "messages" := [{| content := "thinking" |}] ]} ]}, S n);
        ({[ "tools" := {[ "messages" := [] ]} ]}, S (S n));
        ({[ "agent" := {[ "messages" := [{| content := "done" |}] ]} ]}, S (S (S n)))];
     ending := None;
     after := S (S (S n)) |}.

End Console.

(* ===================================================================== *)
(** * Facts *)
(* ===================================================================== *)

Section ShapeFacts.

Context {World Abi : Type}.
Variable AUCTION_ABI : Abi.

(** The handler around the common tail. *)
Lemma try_submit_shape (wallet : Wallet World Abi) (inv : ContractInvocation Abi)
    (ok : string -> string -> string) (pre : string) (w : World) :
  try_except World Abi
    (bind World Abi (call_invoke_contract World Abi wallet inv) (fun pending =>
     bind World Abi (call_wait World Abi pending) (fun settled =>
     bind World Abi (eval World Abi (get_transaction_hash settled)) (fun hash =>
     bind World Abi (eval World Abi (get_transaction_link settled)) (fun link =>
     ret World Abi (ok hash link))))))
    (fun e => ret World Abi (pre +:+ exc_str e)) w =
  submit_and_report wallet inv ok pre w.
Proof.
  unfold try_except, bind, eval, submit_and_report, call_invoke_contract, call_wait, ret.
  destruct (invoke_contract wallet inv w) as [[pending|e] w1]; [|reflexivity].
  cbn [result final calls].
  destruct (wait pending w1) as [[settled|e] w2]; [|reflexivity].
  cbn [result final calls].
  destruct (get_transaction_hash settled) as [hash|e]; [|reflexivity].
  cbn [result final calls].
  destruct (get_transaction_link settled) as [link|e]; reflexivity.
Qed.

(** A conversion in front of the tail, under the same handler. *)
Lemma try_convert_shape {A : Type} (conv : outcome A) (rest : A -> M World Abi string)
    (pre : string) (w : World) :
  try_except World Abi (bind World Abi (eval World Abi conv) rest)
    (fun e => ret World Abi (pre +:+ exc_str e)) w =
  match conv with
  | Returns a =>
      try_except World Abi (rest a) (fun e => ret World Abi (pre +:+ exc_str e)) w
  | Raises e =>
      {| result := Returns (pre +:+ exc_str e); final := w; calls := [] |}
  end.
Proof.
  unfold try_except, bind, eval, ret. destruct conv as [a|e]; cbn [result final calls].
  - destruct (rest a w) as [[s|e] w' evs]; reflexivity.
  - reflexivity.
Qed.

Lemma start_nft_auction_shape (wallet : Wallet World Abi) nft_contract_address token_id
    starting_price duration (w : World) :
  start_nft_auction AUCTION_ABI wallet nft_contract_address token_id starting_price duration w =
  match wei_of starting_price with
  | Raises e =>
      {| result := Returns ("Error creating auction: " +:+ exc_str e);
         final := w; calls := [] |}
  | Returns wei =>
      submit_and_report wallet
        (create_auction_invocation AUCTION_ABI nft_contract_address token_id wei duration)
        (auction_created nft_contract_address token_id starting_price duration)
        "Error creating auction: " w
  end.
Proof.
  unfold start_nft_auction, wei_of.
  rewrite try_convert_shape.
  generalize (PyFloat.mul_int starting_price (10 ^ 18)). intros [product|e]; [|reflexivity].
  rewrite try_convert_shape.
  generalize (PyFloat.to_int product). intros [wei|e]; [|reflexivity].
  apply try_submit_shape.
Qed.

Lemma bid_on_nft_shape (wallet : Wallet World Abi) token_id bid_amount (w : World) :
  bid_on_nft AUCTION_ABI wallet token_id bid_amount w =
  match wei_of bid_amount with
  | Raises e =>
      {| result := Returns ("Error placing bid: " +:+ exc_str e);
         final := w; calls := [] |}
  | Returns wei =>
      submit_and_report wallet (bid_invocation AUCTION_ABI token_id wei)
        (bid_placed token_id bid_amount) "Error placing bid: " w
  end.
Proof.
  unfold bid_on_nft, wei_of.
  rewrite try_convert_shape.
  generalize (PyFloat.mul_int bid_amount (10 ^ 18)). intros [product|e]; [|reflexivity].
  rewrite try_convert_shape.
  generalize (PyFloat.to_int product). intros [wei|e]; [|reflexivity].
  apply try_submit_shape.
Qed.

Lemma finalize_nft_auction_shape (wallet : Wallet World Abi) token_id (w : World) :
  finalize_nft_auction AUCTION_ABI wallet token_id w =
  submit_and_report wallet (finalize_invocation AUCTION_ABI token_id)
    (auction_finalized token_id) "Error finalizing auction: " w.
Proof. unfold finalize_nft_auction. apply try_submit_shape. Qed.

End ShapeFacts.

(** ** Strings *)


Lemma prefix_append_l (p s t : string) :
  String.prefix p s = true -> String.prefix p (s +:+ t) = true.
Proof.
  revert s; induction p as [|c p IH]; intros s H; simpl in *.
  - now destruct (s +:+ t).
  - destruct s as [|d s]; simpl in *; [discriminate|].
    destruct (ascii_dec c d); [apply IH; exact H | discriminate].
Qed.

Lemma contains_prefix (sub s : string) :
  String.prefix sub s = true -> contains sub s = true.
Proof. intros H. destruct s; cbn [contains]; rewrite H; reflexivity. Qed.

Lemma contains_append_r (sub a s : string) :
  contains sub s = true -> contains sub (a +:+ s) = true.
Proof.
  intros H. induction a as [|c a IH]; [exact H|].
  simpl. rewrite IH. apply orb_true_r.
Qed.

Lemma contains_append_l (sub s b : string) :
  contains sub s = true -> contains sub (s +:+ b) = true.
Proof.
  induction s as [|c s IH]; cbn [contains]; intros H.
  - rewrite orb_false_r in H. apply contains_prefix.
    exact (prefix_append_l sub EmptyString b H).
  - apply orb_true_iff in H as [H|H].
    + apply (prefix_append_l sub (String c s) b) in H.
      change (String c s +:+ b) with (String c (s +:+ b)) in *.
      cbn [contains]. rewrite H. reflexivity.
    + change (String c s +:+ b) with (String c (s +:+ b)).
      cbn [contains]. rewrite (IH H). apply orb_true_r.
Qed.





(** ** The common tail *)

Section ReportFacts.

Context {World Abi : Type}.
Implicit Types (wallet : Wallet World Abi) (inv : ContractInvocation Abi).
Implicit Types (w : World) (ok : string -> string -> string) (pre : string).

Ltac wallet_cases wallet inv w :=
  unfold submit_and_report;
  destruct (invoke_contract wallet inv w) as [[pending|e0] w1] eqn:Hinvoke;
  [ destruct (wait pending w1) as [[settled|e0] w2] eqn:Hwait;
    [ destruct (get_transaction_hash settled) as [hash|e0] eqn:Hhash;
      [ destruct (get_transaction_link settled) as [link|e0] eqn:Hlink | ] | ] | ];
  cbn [result final calls submitted].


Lemma submit_and_report_submitted wallet inv ok pre w :
  submitted (calls (submit_and_report wallet inv ok pre w)) = [inv].
Proof. wallet_cases wallet inv w; reflexivity. Qed.

Lemma submit_and_report_calls wallet inv ok pre w :
  (exists e, calls (submit_and_report wallet inv ok pre w) = [Invoked inv (Some e)]) \/
  (exists r, calls (submit_and_report wallet inv ok pre w) = [Invoked inv None; Waited r]).
Proof. wallet_cases wallet inv w; eauto. Qed.




Lemma submit_and_report_rejecting e inv ok pre w :
  submit_and_report (Stub.rejecting e) inv ok pre w =
  {| result := Returns (pre +:+ exc_str e); final := w;
     calls := [Invoked inv (Some e)] |}.
Proof. reflexivity. Qed.

End ReportFacts.

(* ===================================================================== *)
(** * Error handling *)
(* ===================================================================== *)






(* ===================================================================== *)
(** * What is submitted *)
(* ===================================================================== *)



(** C10.  Every invocation [bid_on_nft] submits has method ["bid"] and the
    argument mapping [{"tokenId": token_id}], exactly; the amount travels as
    the invocation's value, in wei.  One such invocation is submitted when
    the amount converts, none when the conversion raises. *)
Theorem bid_args_hold_token_id_only
    {World Abi : Type} (AUCTION_ABI : Abi) (wallet : Wallet World Abi)
    (token_id : Z) (bid_amount : PyFloat.float) (w : World) :
  let r := bid_on_nft AUCTION_ABI wallet token_id bid_amount w in
  Forall (fun inv => method inv = "bid" /\
                     args inv = {[ "tokenId" := PyInt token_id ]} /\
                     dom (args inv) = {[ "tokenId" ]})
         (submitted (calls r)) /\
  match wei_of bid_amount with
  | Returns wei =>
      submitted (calls r) =
        [ {| contract_address := AUCTION_CONTRACT_ADDRESS;
             method := "bid";
             args := {[ "tokenId" := PyInt token_id ]};
             abi := AUCTION_ABI;
             value := Some wei |} ]
  | Raises _ => submitted (calls r) = []
  end.
Proof.
  cbv zeta. rewrite bid_on_nft_shape.
  destruct (wei_of bid_amount) as [wei|e].
  - rewrite submit_and_report_submitted. split; [|reflexivity].
    constructor; [|constructor]. cbn [method args].
    split; [reflexivity|]. split; [reflexivity | apply dom_singleton_L].
  - split; [constructor | reflexivity].
Qed.

(** C3.  [bid_on_nft(wallet, 1, 0.5)] submits one invocation, of method
    ["bid"], with the value 500000000000000000 wei attached; its argument
    mapping is [{"tokenId": 1}] and carries no amount. *)
Theorem bid_half_eth_attaches_wei
    {World Abi : Type} (AUCTION_ABI : Abi) (wallet : Wallet World Abi) (w : World) :
  exists inv raised rest,
    calls (bid_on_nft AUCTION_ABI wallet 1 Lit.f0_5 w) = Invoked inv raised :: rest /\
    submitted (calls (bid_on_nft AUCTION_ABI wallet 1 Lit.f0_5 w)) = [inv] /\
    method inv = "bid" /\
    value inv = Some 500000000000000000 /\
    args inv = {[ "tokenId" := PyInt 1 ]} /\
    (forall k, args inv !! k <> Some (PyInt 500000000000000000)).
Proof.
  assert (W5 : wei_of Lit.f0_5 = Returns 500000000000000000) by (vm_compute; reflexivity).
  rewrite bid_on_nft_shape, W5.
  exists (bid_invocation AUCTION_ABI 1 500000000000000000).
  destruct (submit_and_report_calls wallet (bid_invocation AUCTION_ABI 1 500000000000000000)
              (bid_placed 1 Lit.f0_5) "Error placing bid: " w) as [[e H]|[r H]];
    rewrite H; do 2 eexists; (split; [reflexivity|]);
    cbn [submitted bid_invocation method args value]; repeat split;
    intros k Hk; apply lookup_singleton_Some in Hk as [_ Hk]; discriminate.
Qed.

(* ===================================================================== *)
(** * The worked examples *)
(* ===================================================================== *)

(** The literals are the floats Python reads: [0.1] is the double nearest to
    one tenth (the correctly rounded quotient [1.0 / 10.0]) and prints back
    as [0.1]; [0.5] and [1.000244140625] are exact. *)
Example f0_1_is_one_tenth :
  SFdiv PyFloat.prec PyFloat.emax
    (binary_normalize PyFloat.prec PyFloat.emax 1 0 false)
    (binary_normalize PyFloat.prec PyFloat.emax 10 0 false) = Lit.f0_1.
Proof. vm_compute. reflexivity. Qed.

Example repr_f0_1 : PyFloat.repr Lit.f0_1 = "0.1".
Proof. vm_compute. reflexivity. Qed.

Example f0_5_is_one_half : (PyFloat.to_Q Lit.f0_5 == 1 # 2)%Q.
Proof. vm_compute. reflexivity. Qed.

Example f4097_4096_is_exact : (PyFloat.to_Q Lit.f4097_4096 == 4097 # 4096)%Q.
Proof. vm_compute. reflexivity. Qed.

Example repr_f4097_4096 : PyFloat.repr Lit.f4097_4096 = "1.000244140625".
Proof. vm_compute. reflexivity. Qed.

Example literals_valid :
  forallb PyFloat.valid [Lit.f0_1; Lit.f0_5; Lit.f4097_4096; Lit.f2p1000] = true.
Proof. vm_compute. reflexivity. Qed.

(** C5.  [start_nft_auction(wallet, addr, 1, 0.1, 86400)] against a wallet
    whose settled invocation reports hash ["0xabc"] and link ["link"]
    returns a string that contains ["token ID 1"], ["0.1 ETH"],
    ["86400 seconds"], ["0xabc"] and ["link"]. *)
Theorem start_auction_example_result
    {World Abi : Type} (AUCTION_ABI : Abi) (addr : string) (w : World) :
  exists s,
    result (start_nft_auction AUCTION_ABI (Stub.succeeding "0xabc" "link")
              addr 1 Lit.f0_1 86400 w) = Returns s /\
    contains "token ID 1" s = true /\
    contains "0.1 ETH" s = true /\
    contains "86400 seconds" s = true /\
    contains "0xabc" s = true /\
    contains "link" s = true.
Proof.
  assert (W1 : wei_of Lit.f0_1 = Returns 100000000000000000) by (vm_compute; reflexivity).
  rewrite start_nft_auction_shape, W1.
  eexists. split; [reflexivity|].
  unfold auction_created. rewrite repr_f0_1.
  set (head := "Auction created successfully for token ID 1." +:+ nl +:+ "NFT Contract: ").
  set (tail := nl +:+ "Starting price: 0.1 ETH" +:+ nl +:+ "Duration: 86400 seconds" +:+ nl +:+
               "Transaction hash: 0xabc" +:+ nl +:+ "Transaction link: link").
  change (_ +:+ _) with (head +:+ addr +:+ tail).
  split; [apply contains_append_l; reflexivity|].
  repeat split; do 2 apply contains_append_r; reflexivity.
Qed.

(* ===================================================================== *)
(** * Statelessness *)
(* ===================================================================== *)



(* ===================================================================== *)
(** * The ETH to wei conversion *)
(* ===================================================================== *)

(** ** Rounding to binary64 *)

Module Rounding.

(** [iter_pos] is plain iteration. *)
Lemma iter_pos_nat {A} (f : A -> A) (p : positive) (x : A) :
  SpecFloat.iter_pos f p x = Nat.iter (Pos.to_nat p) f x.
Proof.
  revert x. induction p as [p IH|p IH|]; intros x; cbn [SpecFloat.iter_pos].
  - rewrite !IH, Pos2Nat.inj_xI.
    replace (S (2 * Pos.to_nat p)) with (Pos.to_nat p + S (Pos.to_nat p))%nat by lia.
    rewrite Nat.iter_add. f_equal. now rewrite Nat.iter_succ_r.
  - rewrite !IH, Pos2Nat.inj_xO.
    replace (2 * Pos.to_nat p)%nat with (Pos.to_nat p + Pos.to_nat p)%nat by lia.
    now rewrite Nat.iter_add.
  - reflexivity.
Qed.

(** One step of the right shift, on a mantissa that is not negative. *)
Lemma shr_1_nonneg (m : Z) (r s : bool) :
  0 <= m ->
  shr_1 (Build_shr_record m r s) = Build_shr_record (m / 2) (Z.odd m) (r || s).
Proof.
  intros Hm. rewrite <- Z.div2_div.
  destruct m as [|[p|p|]|p]; try reflexivity. lia.
Qed.

(** [n + 1] steps from an exact mantissa: the quotient, the bit shifted
    out last, and whether a lower bit was set. *)
Lemma shr_iter (M : Z) (n : nat) :
  0 <= M ->
  Nat.iter (S n) shr_1 (Build_shr_record M false false) =
  Build_shr_record (M / 2 ^ Z.of_nat (S n)) (Z.testbit M (Z.of_nat n))
    (negb (M mod 2 ^ Z.of_nat n =? 0)).
Proof.
  intros HM. induction n as [|n IH].
  - cbn [Nat.iter]. rewrite shr_1_nonneg by assumption.
    change (2 ^ Z.of_nat 1) with 2. change (2 ^ Z.of_nat 0) with 1.
    rewrite Z.mod_1_r, Z.bit0_odd. reflexivity.
  - change (Nat.iter (S (S n)) shr_1 ?x) with (shr_1 (Nat.iter (S n) shr_1 x)).
    rewrite IH, shr_1_nonneg by (apply Z.div_pos; lia).
    f_equal.
    + rewrite Z.div_div by lia. f_equal.
      rewrite (Nat2Z.inj_succ (S n)), Z.pow_succ_r by lia. lia.
    + rewrite Z.testbit_odd, Z.shiftr_div_pow2 by lia. reflexivity.
    + rewrite (Nat2Z.inj_succ n), Z.pow_succ_r by lia.
      rewrite (Z.mul_comm 2), Z.rem_mul_r by lia.
      pose proof (Z.testbit_spec' M (Z.of_nat n) ltac:(lia)) as Hbit.
      pose proof (Z.mod_pos_bound M (2 ^ Z.of_nat n) ltac:(lia)).
      destruct (Z.testbit M (Z.of_nat n)); cbn [Z.b2z orb] in *;
        rewrite <- Hbit.
      * symmetry. apply negb_true_iff, Z.eqb_neq. lia.
      * now rewrite Z.mul_0_r, Z.add_0_r.
Qed.

Lemma shr_spec (M E n : Z) :
  0 <= M -> 0 < n ->
  shr (Build_shr_record M false false) E n =
  (Build_shr_record (M / 2 ^ n) (Z.testbit M (n - 1)) (negb (M mod 2 ^ (n - 1) =? 0)),
   E + n).
Proof.
  intros HM Hn. destruct n as [|p|p]; try lia.
  cbn [shr]. rewrite iter_pos_nat.
  destruct (Pos.to_nat p) as [|k] eqn:Hk; [lia|].
  rewrite shr_iter by assumption.
  replace (Z.of_nat (S k)) with (Z.pos p) by lia.
  replace (Z.of_nat k) with (Z.pos p - 1) by lia.
  reflexivity.
Qed.

Lemma shr_nonpos (mrs : shr_record) (E n : Z) :
  n <= 0 -> shr mrs E n = (mrs, E).
Proof. intros Hn. destruct n; try reflexivity. lia. Qed.

(** The number of binary digits. *)
Lemma digits2_pos_size (p : positive) : digits2_pos p = Pos.size p.
Proof. induction p; cbn; congruence. Qed.

Lemma digits2_bounds (p : positive) :
  2 ^ (Z.pos (digits2_pos p) - 1) <= Z.pos p < 2 ^ Z.pos (digits2_pos p).
Proof.
  assert (H : Z.pos (digits2_pos p) = Z.log2 (Z.pos p) + 1).
  { rewrite digits2_pos_size. destruct p; cbn; lia. }
  rewrite H. replace (Z.log2 (Z.pos p) + 1 - 1) with (Z.log2 (Z.pos p)) by lia.
  apply Z.log2_spec. lia.
Qed.

Lemma digits2_unique (p : positive) (n : Z) :
  2 ^ (n - 1) <= Z.pos p < 2 ^ n -> Z.pos (digits2_pos p) = n.
Proof.
  intros H.
  assert (Hd : Z.pos (digits2_pos p) = Z.log2 (Z.pos p) + 1).
  { rewrite digits2_pos_size. destruct p; cbn; lia. }
  assert (0 < n).
  { destruct (Z.ltb_spec 0 n); [assumption|].
    rewrite (Z.pow_neg_r 2 (n - 1)) in H by lia.
    assert (2 ^ n <= 1); [|lia].
    destruct (Z.eq_dec n 0) as [->|]; [cbn; lia|].
    rewrite Z.pow_neg_r by lia. lia. }
  rewrite Hd. enough (Z.log2 (Z.pos p) = n - 1) by lia.
  apply Z.log2_unique; [lia|]. now replace (Z.succ (n - 1)) with n by lia.
Qed.

(** Rounding the shifted record to nearest, ties to even, moves the
    mantissa by at most half a unit of the new last place. *)
Lemma round_nearest_even_bound (M n : Z) :
  0 <= M -> 0 < n ->
  let m1 := M / 2 ^ n in
  let mr := round_nearest_even m1
              (loc_of_shr_record
                 (Build_shr_record m1 (Z.testbit M (n - 1))
                    (negb (M mod 2 ^ (n - 1) =? 0)))) in
  m1 <= mr <= m1 + 1 /\ 2 * Z.abs (mr * 2 ^ n - M) <= 2 ^ n.
Proof.
  intros HM Hn m1 mr.
  assert (Hpow : 2 ^ n = 2 * 2 ^ (n - 1)).
  { rewrite <- Z.pow_succ_r by lia. f_equal. lia. }
  pose proof (Z.pow_pos_nonneg 2 (n - 1) ltac:(lia) ltac:(lia)) as Hpos.
  pose proof (Z.div_mod M (2 ^ n) ltac:(lia)) as Hdm. fold m1 in Hdm.
  pose proof (Z.mod_pos_bound M (2 ^ n) ltac:(lia)) as Hrem.
  assert (Hsplit : M mod 2 ^ n =
                   M mod 2 ^ (n - 1) + 2 ^ (n - 1) * Z.b2z (Z.testbit M (n - 1))).
  { rewrite Hpow, (Z.mul_comm 2), Z.rem_mul_r by lia.
    now rewrite Z.testbit_spec' by lia. }
  pose proof (Z.mod_pos_bound M (2 ^ (n - 1)) ltac:(lia)) as Hlow.
  subst mr. cbn [loc_of_shr_record].
  destruct (Z.testbit M (n - 1)); cbn [Z.b2z] in Hsplit;
    destruct (Z.eqb_spec (M mod 2 ^ (n - 1)) 0) as [Hz|Hz];
    cbn [negb round_nearest_even].
  - destruct (Z.even m1); split; try lia; nia.
  - split; [lia | nia].
  - split; [lia | nia].
  - split; [lia | nia].
Qed.

(** A mantissa of exactly 53 bits is left alone; [2^53] is renormalised. *)
Lemma shr_fexp_fits (m : positive) (e : Z) :
  2 ^ 52 <= Z.pos m < 2 ^ 53 -> -1074 <= e ->
  shr_fexp 53 1024 (Z.pos m) e loc_Exact = (Build_shr_record (Z.pos m) false false, e).
Proof.
  intros Hm He. unfold shr_fexp. cbn [Zdigits2 shr_record_of_loc].
  rewrite (digits2_unique m 53) by exact Hm.
  apply shr_nonpos. unfold fexp, emin. lia.
Qed.

Lemma shr_fexp_carry (e : Z) :
  -1074 <= e ->
  shr_fexp 53 1024 (2 ^ 53) e loc_Exact = (Build_shr_record (2 ^ 52) false false, e + 1).
Proof.
  intros He. unfold shr_fexp.
  change (Zdigits2 (2 ^ 53)) with 54.
  replace (fexp 53 1024 (54 + e) - e) with 1 by (unfold fexp, emin; lia).
  reflexivity.
Qed.

(** Rounding [M * 2^E] to binary64, for a mantissa of at least 53 bits in
    the normal range: the result is a float [m' * 2^e'] with a 53-bit
    mantissa, half a unit in the last place away at most, or an infinity
    when [e'] is beyond the largest exponent. *)
Lemma binary_round_aux_normal (sx : bool) (M : positive) (E : Z) :
  let d := Z.pos (digits2_pos M) in
  53 <= d -> -1074 <= E ->
  exists (m' : positive) (e' : Z),
    binary_round_aux 53 1024 sx (Z.pos M) E loc_Exact =
      (if e' <=? 971 then S754_finite sx m' e' else S754_infinity sx) /\
    d + E - 53 <= e' <= d + E - 52 /\
    2 ^ 52 <= Z.pos m' < 2 ^ 53 /\
    2 * Z.abs (Z.pos m' * 2 ^ (e' - E) - Z.pos M) <= 2 ^ (d - 53).
Proof.
  intros d Hd HE.
  pose proof (digits2_bounds M) as HM. fold d in HM.
  unfold binary_round_aux.
  destruct (Z.eq_dec d 53) as [Hd53|Hd53].
  - (* No bit to drop. *)
    rewrite Hd53 in HM. change (53 - 1) with 52 in HM.
    rewrite (shr_fexp_fits M E HM HE). cbn [shr_m loc_of_shr_record round_nearest_even].
    rewrite (shr_fexp_fits M E HM HE). cbn [shr_m].
    exists M, E. change (1024 - 53) with 971.
    repeat split; try lia.
    rewrite Z.sub_diag, Z.mul_1_r, Z.sub_diag, Hd53. cbn. lia.
  - (* [d - 53] bits are dropped. *)
    set (n := d - 53). assert (Hn : 0 < n) by (unfold n; lia).
    assert (Hfirst : shr_fexp 53 1024 (Z.pos M) E loc_Exact =
              (Build_shr_record (Z.pos M / 2 ^ n) (Z.testbit (Z.pos M) (n - 1))
                 (negb (Z.pos M mod 2 ^ (n - 1) =? 0)), E + n)).
    { unfold shr_fexp. cbn [Zdigits2 shr_record_of_loc]. fold d.
      replace (fexp 53 1024 (d + E) - E) with n by (unfold fexp, emin, n; lia).
      apply shr_spec; lia. }
    rewrite Hfirst. cbn [shr_m].
    destruct (round_nearest_even_bound (Z.pos M) n ltac:(lia) Hn) as [Hmr Herr].
    cbv zeta in Hmr, Herr.
    set (mr := round_nearest_even _ _) in *.
    assert (Hm1 : 2 ^ 52 <= Z.pos M / 2 ^ n < 2 ^ 53).
    { assert (Hp : 0 < 2 ^ n) by (apply Z.pow_pos_nonneg; lia).
      assert (H52 : 2 ^ (d - 1) = 2 ^ 52 * 2 ^ n).
      { rewrite <- Z.pow_add_r by lia. f_equal. unfold n. lia. }
      assert (H53 : 2 ^ d = 2 ^ 53 * 2 ^ n).
      { rewrite <- Z.pow_add_r by lia. f_equal. unfold n. lia. }
      split.
      - apply Z.div_le_lower_bound; lia.
      - apply Z.div_lt_upper_bound; lia. }
    destruct (Z.eq_dec mr (2 ^ 53)) as [Hcarry|Hcarry].
    + rewrite Hcarry, shr_fexp_carry by lia. cbn [shr_m].
      change (2 ^ 52) with (Z.pos (2 ^ 52)%positive).
      exists (2 ^ 52)%positive, (E + n + 1). change (1024 - 53) with 971.
      split; [reflexivity|]. split; [unfold n; lia|]. split; [cbn; lia|].
      replace (E + n + 1 - E) with (n + 1) by lia.
      rewrite Z.pow_add_r by lia. change (2 ^ 1) with 2.
      replace (Z.pos (2 ^ 52) * (2 ^ n * 2)) with (2 ^ 53 * 2 ^ n) by (cbn; lia).
      rewrite <- Hcarry. exact Herr.
    + destruct mr as [|pr|pr] eqn:Hr; try lia.
      assert (Hfit : 2 ^ 52 <= Z.pos pr < 2 ^ 53) by lia.
      rewrite (shr_fexp_fits pr (E + n) Hfit) by lia. cbn [shr_m].
      exists pr, (E + n). change (1024 - 53) with 971.
      split; [reflexivity|]. split; [unfold n; lia|]. split; [exact Hfit|].
      replace (E + n - E) with n by lia. exact Herr.
Qed.
End Rounding.

(** ** The conversion to wei *)

Module Wei.
Import Rounding.

Lemma of_int_ten18 :
  PyFloat.of_int (10 ^ 18) = Returns (S754_finite false PyFloat.ten18_mantissa 7).
Proof. vm_compute. reflexivity. Qed.

Lemma ten18_exact : Z.pos PyFloat.ten18_mantissa * 2 ^ 7 = 10 ^ 18.
Proof. reflexivity. Qed.

Lemma ten18_bits : 2 ^ 52 <= Z.pos PyFloat.ten18_mantissa < 2 ^ 53.
Proof. unfold PyFloat.ten18_mantissa. lia. Qed.

Lemma valid_finite (s : bool) (m : positive) (e : Z) :
  PyFloat.valid (S754_finite s m e) = true ->
  -1074 <= e <= 971 /\ Z.pos (digits2_pos m) <= 53.
Proof.
  unfold PyFloat.valid, valid_binary, bounded, canonical_mantissa, fexp, emin,
    PyFloat.prec, PyFloat.emax.
  intros H. apply andb_true_iff in H as [H1 H2].
  apply Z.eqb_eq in H1. apply Z.leb_le in H2. lia.
Qed.

(** The product [x * 10**18] of a finite float: a float within half a unit
    in the last place of the exact product, or an infinity. *)
Lemma mul_int_finite (s : bool) (m : positive) (e : Z) :
  PyFloat.valid (S754_finite s m e) = true ->
  exists (m' : positive) (e' : Z),
    PyFloat.mul_int (S754_finite s m e) (10 ^ 18) =
      Returns (if e' <=? 971 then S754_finite s m' e' else S754_infinity s) /\
    e + 7 <= e' <= e + 61 /\
    2 ^ 53 * Z.abs (Z.pos m' * 2 ^ (e' - (e + 7)) - Z.pos m * Z.pos PyFloat.ten18_mantissa)
      <= Z.pos m * Z.pos PyFloat.ten18_mantissa.
Proof.
  intros Hv. apply valid_finite in Hv as [He Hdm].
  unfold PyFloat.mul_int. rewrite of_int_ten18. cbn [SFmul].
  rewrite xorb_false_r.
  set (M := (m * PyFloat.ten18_mantissa)%positive).
  pose proof (digits2_bounds M) as HM.
  pose proof (digits2_bounds m) as Hm.
  pose proof ten18_bits as Ht.
  assert (HMz : Z.pos M = Z.pos m * Z.pos PyFloat.ten18_mantissa) by reflexivity.
  set (d := Z.pos (digits2_pos M)) in *.
  set (dm := Z.pos (digits2_pos m)) in *.
  assert (Hlow : Z.pos PyFloat.ten18_mantissa <= Z.pos M).
  { rewrite HMz. pose proof (Pos2Z.is_pos m). pose proof (Pos2Z.is_pos PyFloat.ten18_mantissa).
    nia. }
  assert (Hd53 : 53 <= d).
  { destruct (Z.le_gt_cases 53 d) as [|Hlt]; [assumption|].
    assert (2 ^ d <= 2 ^ 52) by (apply Z.pow_le_mono_r; lia). lia. }
  assert (Hd106 : d <= dm + 53).
  { assert (Hup : Z.pos M < 2 ^ (dm + 53)).
    { rewrite Z.pow_add_r, HMz by lia.
      apply Z.mul_lt_mono_nonneg; lia. }
    assert (Hlt : 2 ^ (d - 1) < 2 ^ (dm + 53)) by lia.
    apply Z.pow_lt_mono_r_iff in Hlt; lia. }
  destruct (binary_round_aux_normal s M (e + 7) Hd53 ltac:(lia))
    as (m' & e' & Hr & He' & _ & Herr).
  fold d in He', Herr.
  exists m', e'. unfold PyFloat.prec, PyFloat.emax. rewrite Hr.
  split; [reflexivity|]. split; [lia|].
  rewrite <- HMz.
  assert (2 ^ 52 * 2 ^ (d - 53) = 2 ^ (d - 1)).
  { rewrite <- Z.pow_add_r by lia. f_equal. lia. }
  change (2 ^ 53) with (2 ^ 52 * 2). nia.
Qed.

(** The truncation of [int()] on a finite float is the floor of its
    magnitude. *)
Lemma Qfloor_shiftl (m e : Z) : Qfloor (inject_Z m * 2 ^ e)%Q = Z.shiftl m e.
Proof.
  destruct (Z.le_gt_cases 0 e) as [He|He].
  - rewrite Z.shiftl_mul_pow2 by assumption.
    rewrite <- (Qfloor_Z (m * 2 ^ e)). apply Qfloor_comp.
    rewrite inject_Z_mult, Zpower_Qpower by assumption. reflexivity.
  - replace e with (- - e) by lia.
    rewrite Z.shiftl_opp_r, Z.shiftr_div_pow2 by lia.
    rewrite Zdiv_Qdiv. apply Qfloor_comp.
    rewrite Qpower_opp, Zpower_Qpower by lia. reflexivity.
Qed.

Lemma two_power_pos (e : Z) : (0 < 2 ^ e)%Q.
Proof. now apply Qpower_0_lt. Qed.


Lemma wei_of_zero (s : bool) : wei_of (S754_zero s) = Returns 0.
Proof. unfold wei_of, PyFloat.mul_int. rewrite of_int_ten18. reflexivity. Qed.

(** What [int(x * 10**18)] is on a finite float: the truncated product
    when the product is in range, [OverflowError] when it is not. *)
Lemma wei_of_finite (s : bool) (m : positive) (e : Z) :
  PyFloat.valid (S754_finite s m e) = true ->
  exists (m' : positive) (e' : Z),
    e + 7 <= e' <= e + 61 /\
    2 ^ 53 * Z.abs (Z.pos m' * 2 ^ (e' - (e + 7)) - Z.pos m * Z.pos PyFloat.ten18_mantissa)
      <= Z.pos m * Z.pos PyFloat.ten18_mantissa /\
    ((e' <= 971 /\
      PyFloat.mul_int (S754_finite s m e) (10 ^ 18) = Returns (S754_finite s m' e') /\
      wei_of (S754_finite s m e) = Returns (cond_Zopp s (Z.shiftl (Z.pos m') e'))) \/
     (971 < e' /\
      wei_of (S754_finite s m e) =
        Raises (OverflowError "cannot convert float infinity to integer"))).
Proof.
  intros Hv. destruct (mul_int_finite s m e Hv) as (m' & e' & Hmul & He' & Herr).
  exists m', e'. split; [exact He'|]. split; [exact Herr|].
  unfold wei_of. rewrite Hmul.
  destruct (Z.leb_spec e' 971); [left | right]; auto.
Qed.

Lemma shiftl_pos_nonneg (m : positive) (e : Z) : 0 <= Z.shiftl (Z.pos m) e.
Proof. apply Z.shiftl_nonneg. lia. Qed.

(** In range, whatever the sign: binary exponent at most 910, that is a
    magnitude below [2^963]. *)
Lemma wei_of_defined (x : PyFloat.float) :
  PyFloat.valid x = true -> PyFloat.exponent_at_most 910 x = true ->
  exists wei, wei_of x = Returns wei /\
    (PyFloat.nonneg x = true -> 0 <= wei) /\
    (PyFloat.nonpos x = true -> wei <= 0).
Proof.
  intros Hv Hx. destruct x as [s|s| |s m e]; cbn in Hx; try discriminate Hx.
  - exists 0. rewrite wei_of_zero. repeat split; lia.
  - apply Z.leb_le in Hx.
    destruct (wei_of_finite s m e Hv) as (m' & e' & He' & _ & [(_ & _ & Hw)|(Hbig & _)]);
      [|lia].
    clear Hv. eexists. split; [exact Hw|].
    pose proof (shiftl_pos_nonneg m' e').
    destruct s; cbn [PyFloat.nonneg PyFloat.nonpos negb cond_Zopp];
      split; intros Hs; try discriminate Hs; lia.
Qed.
End Wei.

Lemma create_auction_args_lookup {Abi} (AUCTION_ABI : Abi) (addr : string) (tid wei dur : Z) :
  let inv := create_auction_invocation AUCTION_ABI addr tid wei dur in
  args inv !! "nftContract" = Some (PyStr addr) /\
  args inv !! "tokenId" = Some (PyInt tid) /\
  args inv !! "startingPrice" = Some (PyInt wei) /\
  args inv !! "duration" = Some (PyInt dur) /\
  dom (args inv) = {[ "nftContract"; "tokenId"; "startingPrice"; "duration" ]}.
Proof.
  cbv zeta. cbn [create_auction_invocation args].
  do 4 (split; [by simplify_map_eq|]).
  rewrite !dom_insert_L, dom_empty_L. set_solver.
Qed.





(** C4, as the code has it.  When the price converts to wei,
    [start_nft_auction] submits exactly one invocation, to the fixed
    contract address, of method ["createAuction"], with the four arguments
    and no value, and waits on it once if the submission returned; when the
    conversion raises it submits nothing and returns the error string.  The
    price converts whenever it is a float of binary exponent at most 910. *)
Theorem start_submits_one_invocation_when_price_converts
    {World Abi : Type} (AUCTION_ABI : Abi) (wallet : Wallet World Abi)
    (nft_contract_address : string) (token_id : Z) (starting_price : PyFloat.float)
    (duration : Z) (w : World) :
  let r := start_nft_auction AUCTION_ABI wallet nft_contract_address token_id
             starting_price duration w in
  (forall wei, wei_of starting_price = Returns wei ->
     let inv := create_auction_invocation AUCTION_ABI nft_contract_address
                  token_id wei duration in
     submitted (calls r) = [inv] /\
     contract_address inv = "0xA0f0b923532fdbcd85A11ccAED1362691C7931fA" /\
     method inv = "createAuction" /\
     (args inv !! "nftContract" = Some (PyStr nft_contract_address) /\
      args inv !! "tokenId" = Some (PyInt token_id) /\
      args inv !! "startingPrice" = Some (PyInt wei) /\
      args inv !! "duration" = Some (PyInt duration) /\
      dom (args inv) = {[ "nftContract"; "tokenId"; "startingPrice"; "duration" ]}) /\
     value inv = None /\
     ((exists e, calls r = [Invoked inv (Some e)]) \/
      (exists waited, calls r = [Invoked inv None; Waited waited]))) /\
  (forall e, wei_of starting_price = Raises e ->
     calls r = [] /\
     result r = Returns ("Error creating auction: " +:+ exc_str e)) /\
  (PyFloat.valid starting_price = true ->
   PyFloat.exponent_at_most 910 starting_price = true ->
   exists wei, wei_of starting_price = Returns wei).
Proof.
  cbv zeta. rewrite start_nft_auction_shape. split; [|split].
  - intros wei ->.
    split; [apply submit_and_report_submitted|].
    split; [reflexivity|]. split; [reflexivity|].
    split; [apply create_auction_args_lookup|].
    split; [reflexivity|]. apply submit_and_report_calls.
  - intros e ->. split; reflexivity.
  - intros Hv Hx. destruct (Wei.wei_of_defined starting_price Hv Hx) as (wei & Hw & _).
    eauto.
Qed.

Lemma start_submits_one_invocation_when_price_converts_witness :
  PyFloat.valid Lit.f0_1 = true /\
  PyFloat.exponent_at_most 910 Lit.f0_1 = true /\
  wei_of Lit.f0_1 = Returns 100000000000000000 /\
  submitted (calls (start_nft_auction tt Demo.succeeding "0xNFT" 1 Lit.f0_1 86400 tt))
    = [create_auction_invocation tt "0xNFT" 1 100000000000000000 86400].
Proof.
  assert (H1 : PyFloat.valid Lit.f0_1 = true) by (vm_compute; reflexivity).
  assert (H2 : PyFloat.exponent_at_most 910 Lit.f0_1 = true) by reflexivity.
  assert (H3 : wei_of Lit.f0_1 = Returns 100000000000000000) by (vm_compute; reflexivity).
  split; [exact H1|]. split; [exact H2|]. split; [exact H3|].
  destruct (start_submits_one_invocation_when_price_converts tt Demo.succeeding
              "0xNFT" 1 Lit.f0_1 86400 tt) as (Hsub & _ & Hdef).
  destruct (Hdef H1 H2) as (wei & Hwei).
  destruct (Hsub _ Hwei) as (Hs & _).
  rewrite H3 in Hwei. injection Hwei as <-. exact Hs.
Defined.

(** C4 as worded fails: for the price [2.0 ** 1000] the product with
    [10**18] is an infinity, [int()] raises, and no invocation is
    submitted. *)
Lemma start_submits_nothing_for_huge_price :
  PyFloat.valid Lit.f2p1000 = true /\
  submitted (calls (start_nft_auction tt Demo.succeeding "0xNFT" 1
                      Lit.f2p1000 86400 tt)) = [] /\
  length (submitted (calls (start_nft_auction tt Demo.succeeding "0xNFT" 1
                              Lit.f2p1000 86400 tt))) <> 1%nat /\
  result (start_nft_auction tt Demo.succeeding "0xNFT" 1 Lit.f2p1000 86400 tt)
    = Returns "Error creating auction: cannot convert float infinity to integer".
Proof.
  assert (Hw : wei_of Lit.f2p1000
               = Raises (OverflowError "cannot convert float infinity to integer"))
    by (vm_compute; reflexivity).
  rewrite start_nft_auction_shape, Hw. cbn [calls submitted result length].
  split; [vm_compute; reflexivity|]. split; [reflexivity|].
  split; [discriminate | reflexivity].
Qed.

(** C8, as the code has it.  No price is rejected for its sign: a zero, and
    a negative price of binary exponent at most 910 (magnitude below
    [2^963]), is converted to a wei value that is zero or negative, and the
    invocation is built and submitted, whatever the duration. *)
Theorem start_accepts_nonpositive_price
    {World Abi : Type} (AUCTION_ABI : Abi) (wallet : Wallet World Abi)
    (nft_contract_address : string) (token_id : Z) (starting_price : PyFloat.float)
    (duration : Z) (w : World) :
  PyFloat.valid starting_price = true ->
  PyFloat.nonpos starting_price = true ->
  PyFloat.exponent_at_most 910 starting_price = true ->
  exists wei,
    wei_of starting_price = Returns wei /\
    wei <= 0 /\
    submitted (calls (start_nft_auction AUCTION_ABI wallet nft_contract_address token_id
                        starting_price duration w))
      = [create_auction_invocation AUCTION_ABI nft_contract_address token_id wei duration] /\
    args (create_auction_invocation AUCTION_ABI nft_contract_address token_id wei duration)
      !! "startingPrice" = Some (PyInt wei) /\
    args (create_auction_invocation AUCTION_ABI nft_contract_address token_id wei duration)
      !! "duration" = Some (PyInt duration).
Proof.
  intros Hv Hneg Hx.
  destruct (Wei.wei_of_defined starting_price Hv Hx) as (wei & Hw & _ & Hle).
  exists wei. split; [exact Hw|]. split; [exact (Hle Hneg)|].
  rewrite start_nft_auction_shape, Hw.
  split; [apply submit_and_report_submitted|].
  destruct (create_auction_args_lookup AUCTION_ABI nft_contract_address token_id wei duration)
    as (_ & _ & Hsp & Hdur & _).
  split; [exact Hsp | exact Hdur].
Qed.

Lemma start_accepts_nonpositive_price_witness :
  PyFloat.valid Lit.fm0_5 = true /\
  PyFloat.nonpos Lit.fm0_5 = true /\
  PyFloat.exponent_at_most 910 Lit.fm0_5 = true /\
  submitted (calls (start_nft_auction tt Demo.succeeding "0xNFT" 1 Lit.fm0_5 (-5) tt))
    = [create_auction_invocation tt "0xNFT" 1 (-500000000000000000) (-5)].
Proof.
  assert (H1 : PyFloat.valid Lit.fm0_5 = true) by (vm_compute; reflexivity).
  assert (H2 : PyFloat.nonpos Lit.fm0_5 = true) by reflexivity.
  assert (H3 : PyFloat.exponent_at_most 910 Lit.fm0_5 = true) by reflexivity.
  split; [exact H1|]. split; [exact H2|]. split; [exact H3|].
  destruct (start_accepts_nonpositive_price tt Demo.succeeding "0xNFT" 1 Lit.fm0_5
              (-5) tt H1 H2 H3) as (wei & Hw & _ & Hs & _).
  assert (Hwei : wei_of Lit.fm0_5 = Returns (-500000000000000000))
    by (vm_compute; reflexivity).
  rewrite Hwei in Hw. injection Hw as <-. exact Hs.
Defined.

(** C8 as worded fails: the negative price [-(2.0 ** 1000)] is not
    converted, its product with [10**18] being [-inf], and nothing is
    submitted. *)
Lemma start_rejects_huge_negative_price :
  PyFloat.valid Lit.fm2p1000 = true /\
  PyFloat.nonpos Lit.fm2p1000 = true /\
  wei_of Lit.fm2p1000
    = Raises (OverflowError "cannot convert float infinity to integer") /\
  submitted (calls (start_nft_auction tt Demo.succeeding "0xNFT" 1
                      Lit.fm2p1000 86400 tt)) = [] /\
  result (start_nft_auction tt Demo.succeeding "0xNFT" 1 Lit.fm2p1000 86400 tt)
    = Returns "Error creating auction: cannot convert float infinity to integer".
Proof.
  assert (Hw : wei_of Lit.fm2p1000
               = Raises (OverflowError "cannot convert float infinity to integer"))
    by (vm_compute; reflexivity).
  rewrite start_nft_auction_shape, Hw. cbn [calls submitted result].
  split; [vm_compute; reflexivity|]. repeat split.
Qed.

(* ===================================================================== *)
(** * Further properties of the conversion *)
(* ===================================================================== *)

(** When the dropped bits are all zero the rounding is exact. *)
Lemma binary_round_aux_exact (sx : bool) (M : positive) (E : Z) :
  let d := Z.pos (digits2_pos M) in
  53 <= d -> -1074 <= E ->
  Z.pos M mod 2 ^ (d - 53) = 0 ->
  exists (m' : positive) (e' : Z),
    binary_round_aux 53 1024 sx (Z.pos M) E loc_Exact =
      (if e' <=? 971 then S754_finite sx m' e' else S754_infinity sx) /\
    E <= e' <= d + E - 53 /\
    Z.pos m' * 2 ^ (e' - E) = Z.pos M.
Proof.
  intros d Hd HE Hdiv.
  pose proof (Rounding.digits2_bounds M) as HM. fold d in HM.
  unfold binary_round_aux.
  destruct (Z.eq_dec d 53) as [Hd53|Hd53].
  - rewrite Hd53 in HM. change (53 - 1) with 52 in HM.
    rewrite (Rounding.shr_fexp_fits M E HM HE).
    cbn [shr_m loc_of_shr_record round_nearest_even].
    rewrite (Rounding.shr_fexp_fits M E HM HE). cbn [shr_m].
    exists M, E. change (1024 - 53) with 971.
    split; [reflexivity|]. split; [lia|].
    rewrite Z.sub_diag. change (2 ^ 0) with 1. lia.
  - set (n := d - 53) in *. assert (Hn : 0 < n) by (unfold n; lia).
    assert (Hp : 0 < 2 ^ n) by (apply Z.pow_pos_nonneg; lia).
    assert (Hq : Z.pos M = 2 ^ n * (Z.pos M / 2 ^ n)).
    { pose proof (Z.div_mod (Z.pos M) (2 ^ n) ltac:(lia)). lia. }
    assert (Hbit : Z.testbit (Z.pos M) (n - 1) = false).
    { rewrite Hq, Z.mul_comm. apply Z.mul_pow2_bits_low. lia. }
    assert (Hlow : Z.pos M mod 2 ^ (n - 1) = 0).
    { assert (Hpow : 2 ^ n = 2 * 2 ^ (n - 1)).
      { rewrite <- Z.pow_succ_r by lia. f_equal. lia. }
      rewrite Hq, Hpow.
      replace (2 * 2 ^ (n - 1) * (Z.pos M / (2 * 2 ^ (n - 1))))
        with (2 * (Z.pos M / (2 * 2 ^ (n - 1))) * 2 ^ (n - 1)) by lia.
      apply Z_mod_mult. }
    assert (Hfirst : shr_fexp 53 1024 (Z.pos M) E loc_Exact =
              (Build_shr_record (Z.pos M / 2 ^ n) false false, E + n)).
    { unfold shr_fexp. cbn [Zdigits2 shr_record_of_loc]. fold d.
      replace (fexp 53 1024 (d + E) - E) with n by (unfold fexp, emin, n; lia).
      rewrite Rounding.shr_spec by lia. now rewrite Hbit, Hlow. }
    rewrite Hfirst. cbn [shr_m loc_of_shr_record round_nearest_even].
    assert (Hm1 : 2 ^ 52 <= Z.pos M / 2 ^ n < 2 ^ 53).
    { assert (H52 : 2 ^ (d - 1) = 2 ^ 52 * 2 ^ n).
      { rewrite <- Z.pow_add_r by lia. f_equal. unfold n. lia. }
      assert (H53 : 2 ^ d = 2 ^ 53 * 2 ^ n).
      { rewrite <- Z.pow_add_r by lia. f_equal. unfold n. lia. }
      split; [apply Z.div_le_lower_bound; lia | apply Z.div_lt_upper_bound; lia]. }
    destruct (Z.pos M / 2 ^ n) as [|p|p] eqn:Hquot; try lia.
    rewrite (Rounding.shr_fexp_fits p (E + n) Hm1) by lia. cbn [shr_m].
    exists p, (E + n). change (1024 - 53) with 971.
    split; [reflexivity|]. split; [unfold n; lia|].
    replace (E + n - E) with n by lia. lia.
Qed.

Lemma exact_product_Q (m : positive) (e : Z) :
  (inject_Z (Z.pos m) * 2 ^ e * 10 ^ 18
   == inject_Z (Z.pos (m * PyFloat.ten18_mantissa)) * 2 ^ (e + 7))%Q.
Proof.
  assert (Hten : (10 ^ 18 == inject_Z (Z.pos PyFloat.ten18_mantissa) * 2 ^ 7)%Q)
    by reflexivity.
  rewrite Hten, Pos2Z.inj_mul, inject_Z_mult, (Qpower_plus 2 e 7) by discriminate.
  ring.
Qed.

Lemma wei_of_exact (m : positive) (e : Z) :
  PyFloat.valid (S754_finite false m e) = true ->
  e <= 910 ->
  PyFloat.product_fits (S754_finite false m e) = true ->
  wei_of (S754_finite false m e) = Returns (spec_wei (S754_finite false m e)).
Proof.
  intros Hv He Hfit. apply Wei.valid_finite in Hv as [Hrange Hdm].
  cbn [PyFloat.product_fits] in Hfit. apply Z.eqb_eq in Hfit.
  set (M := (m * PyFloat.ten18_mantissa)%positive) in *.
  pose proof (Rounding.digits2_bounds M) as HM.
  pose proof (Rounding.digits2_bounds m) as Hm.
  pose proof Wei.ten18_bits as Ht.
  assert (HMz : Z.pos M = Z.pos m * Z.pos PyFloat.ten18_mantissa) by reflexivity.
  assert (Hlow : Z.pos PyFloat.ten18_mantissa <= Z.pos M).
  { rewrite HMz. pose proof (Pos2Z.is_pos m).
    pose proof (Pos2Z.is_pos PyFloat.ten18_mantissa). nia. }
  set (d := Z.pos (digits2_pos M)) in *.
  set (dm := Z.pos (digits2_pos m)) in *.
  assert (Hd53 : 53 <= d).
  { destruct (Z.le_gt_cases 53 d) as [|Hlt]; [assumption|].
    assert (2 ^ d <= 2 ^ 52) by (apply Z.pow_le_mono_r; lia). lia. }
  assert (Hd106 : d <= dm + 53).
  { assert (Hup : Z.pos M < 2 ^ (dm + 53)).
    { rewrite Z.pow_add_r, HMz by lia. apply Z.mul_lt_mono_nonneg; lia. }
    assert (Hlt : 2 ^ (d - 1) < 2 ^ (dm + 53)) by lia.
    apply Z.pow_lt_mono_r_iff in Hlt; lia. }
  destruct (binary_round_aux_exact false M (e + 7) Hd53 ltac:(lia) Hfit)
    as (m' & e' & Hr & He' & Hexact).
  fold d in He'.
  unfold wei_of, PyFloat.mul_int. rewrite Wei.of_int_ten18. cbn [SFmul xorb].
  fold M. unfold PyFloat.prec, PyFloat.emax. rewrite Hr.
  destruct (Z.leb_spec e' 971) as [_|Hbig]; [|lia].
  cbn [PyFloat.to_int cond_Zopp]. f_equal.
  unfold spec_wei. cbn [PyFloat.to_Q cond_Zopp].
  rewrite <- Wei.Qfloor_shiftl. apply Qfloor_comp.
  rewrite exact_product_Q. fold M. rewrite <- Hexact.
  replace e' with ((e' - (e + 7)) + (e + 7)) at 1 by lia.
  rewrite (Qpower_plus 2 (e' - (e + 7)) (e + 7)) by discriminate.
  rewrite inject_Z_mult, Zpower_Qpower by lia.
  change (inject_Z 2) with 2%Q. ring.
Qed.

(** X1.  When the exact product [price * 10^18] needs no more than 53 bits
    (prices such as 0.5, 1, 2.25 or 2362 ETH), the float product drops
    nothing: [start_nft_auction] submits [floor(price * 10^18)] as the
    starting price, and [bid_on_nft] attaches [floor(amount * 10^18)]. *)
Theorem conversion_exact_when_product_fits
    {World Abi : Type} (AUCTION_ABI : Abi) (wallet : Wallet World Abi)
    (nft_contract_address : string) (token_id : Z) (amount : PyFloat.float)
    (duration : Z) (w : World) :
  PyFloat.valid amount = true ->
  PyFloat.nonneg amount = true ->
  PyFloat.exponent_at_most 910 amount = true ->
  PyFloat.product_fits amount = true ->
  submitted (calls (start_nft_auction AUCTION_ABI wallet nft_contract_address token_id
                      amount duration w))
    = [create_auction_invocation AUCTION_ABI nft_contract_address token_id
         (spec_wei amount) duration] /\
  submitted (calls (bid_on_nft AUCTION_ABI wallet token_id amount w))
    = [bid_invocation AUCTION_ABI token_id (spec_wei amount)].
Proof.
  intros Hv Hpos Hx Hfit.
  assert (Hw : wei_of amount = Returns (spec_wei amount)).
  { destruct amount as [s|s| |s m e]; try discriminate Hx.
    - rewrite Wei.wei_of_zero. reflexivity.
    - destruct s; [discriminate Hpos|].
      cbn [PyFloat.exponent_at_most] in Hx. apply Z.leb_le in Hx.
      now apply wei_of_exact. }
  rewrite start_nft_auction_shape, bid_on_nft_shape, Hw.
  split; apply submit_and_report_submitted.
Qed.

Lemma conversion_exact_when_product_fits_witness :
  PyFloat.valid Lit.f0_5 = true /\
  PyFloat.nonneg Lit.f0_5 = true /\
  PyFloat.exponent_at_most 910 Lit.f0_5 = true /\
  PyFloat.product_fits Lit.f0_5 = true /\
  submitted (calls (bid_on_nft tt Demo.succeeding 1 Lit.f0_5 tt))
    = [bid_invocation tt 1 (spec_wei Lit.f0_5)].
Proof.
  assert (H1 : PyFloat.valid Lit.f0_5 = true) by (vm_compute; reflexivity).
  assert (H2 : PyFloat.nonneg Lit.f0_5 = true) by reflexivity.
  assert (H3 : PyFloat.exponent_at_most 910 Lit.f0_5 = true) by reflexivity.
  assert (H4 : PyFloat.product_fits Lit.f0_5 = true) by (vm_compute; reflexivity).
  split; [exact H1|]. split; [exact H2|]. split; [exact H3|]. split; [exact H4|].
  exact (proj2 (conversion_exact_when_product_fits tt Demo.succeeding "0xNFT" 1
                  Lit.f0_5 86400 tt H1 H2 H3 H4)).
Defined.

(** X2.  A price that is a whole number of ETH, from 0 to 2362, converts
    without error: [int(float(n) * 10**18) = n * 10^18].  The next whole
    number, 2363, does not. *)
Theorem whole_eth_up_to_2362_converts_exactly (n : Z) :
  0 <= n <= 2362 ->
  exists x, PyFloat.of_int n = Returns x /\ wei_of x = Returns (n * 10 ^ 18).
Proof.
  intros Hn.
  set (ok := fun k : nat =>
    match PyFloat.of_int (Z.of_nat k) with
    | Returns x =>
        match wei_of x with
        | Returns z => z =? Z.of_nat k * 10 ^ 18
        | Raises _ => false
        end
    | Raises _ => false
    end).
  assert (Hall : forallb ok (seq 0 2363) = true) by (vm_compute; reflexivity).
  rewrite forallb_forall in Hall.
  specialize (Hall (Z.to_nat n)).
  assert (Hin : In (Z.to_nat n) (seq 0 2363)) by (apply in_seq; lia).
  apply Hall in Hin. unfold ok in Hin. rewrite Z2Nat.id in Hin by lia.
  destruct (PyFloat.of_int n) as [x|e]; [|discriminate Hin].
  exists x. split; [reflexivity|].
  destruct (wei_of x) as [z|e]; [|discriminate Hin].
  apply Z.eqb_eq in Hin. now subst z.
Qed.

Lemma whole_eth_up_to_2362_converts_exactly_witness :
  0 <= 2362 <= 2362 /\
  exists x, PyFloat.of_int 2362 = Returns x /\ wei_of x = Returns (2362 * 10 ^ 18).
Proof.
  split; [lia|]. apply (whole_eth_up_to_2362_converts_exactly 2362). lia.
Defined.

Example eth_2363_is_inexact :
  wei_of (S754_finite false 5196291952869376 (-41)) = Returns 2363000000000000262144 /\
  PyFloat.of_int 2363 = Returns (S754_finite false 5196291952869376 (-41)).
Proof. vm_compute. split; reflexivity. Qed.

(** The sign only labels the rounded result. *)
Lemma binary_round_aux_opp (s : bool) (m e : Z) (l : location) :
  binary_round_aux 53 1024 (negb s) m e l = SFopp (binary_round_aux 53 1024 s m e l).
Proof.
  unfold binary_round_aux.
  destruct (shr_fexp 53 1024 m e l) as [mrs' e'].
  destruct (shr_fexp 53 1024 _ e' loc_Exact) as [mrs'' e''].
  destruct (shr_m mrs''); [reflexivity| |reflexivity].
  destruct (e'' <=? 1024 - 53); reflexivity.
Qed.

Lemma wei_of_negated (x : PyFloat.float) :
  wei_of (SFopp x) =
  match wei_of x with
  | Returns wei => Returns (- wei)
  | Raises e => Raises e
  end.
Proof.
  unfold wei_of, PyFloat.mul_int. rewrite Wei.of_int_ten18.
  destruct x as [s|s| |s m e]; cbn [SFopp SFmul PyFloat.to_int]; try reflexivity.
  rewrite !xorb_false_r. unfold PyFloat.prec, PyFloat.emax.
  rewrite binary_round_aux_opp.
  destruct (binary_round_aux 53 1024 s _ _ loc_Exact) as [s'|s'| |s' m' e'];
    cbn [SFopp PyFloat.to_int]; try reflexivity.
  f_equal. destruct s'; cbn [negb cond_Zopp]; lia.
Qed.

(** X3.  Negating the amount negates the wei value, and an amount that
    does not convert fails the same way with either sign: the conversion
    [int(x * 10**18)] is symmetric about zero (it truncates toward zero,
    it does not take the floor). *)
Theorem wei_of_opp (x : PyFloat.float) :
  wei_of (SFopp x) =
  match wei_of x with
  | Returns wei => Returns (- wei)
  | Raises e => Raises e
  end.
Proof. exact (wei_of_negated x). Qed.

(** X4.  An amount that is NaN or infinite never reaches the wallet:
    [start_nft_auction] and [bid_on_nft] make no call, leave the world as
    it was and return their error string with the message of [int()]. *)
Theorem non_finite_amount_makes_no_call
    {World Abi : Type} (AUCTION_ABI : Abi) (wallet : Wallet World Abi)
    (nft_contract_address : string) (token_id duration : Z) (s : bool) (w : World) :
  start_nft_auction AUCTION_ABI wallet nft_contract_address token_id S754_nan duration w
    = {| result := Returns "Error creating auction: cannot convert float NaN to integer";
         final := w; calls := [] |} /\
  start_nft_auction AUCTION_ABI wallet nft_contract_address token_id (S754_infinity s)
      duration w
    = {| result := Returns "Error creating auction: cannot convert float infinity to integer";
         final := w; calls := [] |} /\
  bid_on_nft AUCTION_ABI wallet token_id S754_nan w
    = {| result := Returns "Error placing bid: cannot convert float NaN to integer";
         final := w; calls := [] |} /\
  bid_on_nft AUCTION_ABI wallet token_id (S754_infinity s) w
    = {| result := Returns "Error placing bid: cannot convert float infinity to integer";
         final := w; calls := [] |}.
Proof.
  assert (Hnan : wei_of S754_nan
                 = Raises (ValueError "cannot convert float NaN to integer")).
  { unfold wei_of, PyFloat.mul_int. rewrite Wei.of_int_ten18. reflexivity. }
  assert (Hinf : wei_of (S754_infinity s)
                 = Raises (OverflowError "cannot convert float infinity to integer")).
  { unfold wei_of, PyFloat.mul_int. rewrite Wei.of_int_ten18. reflexivity. }
  rewrite !start_nft_auction_shape, !bid_on_nft_shape, Hnan, Hinf.
  repeat split.
Qed.

(** X5.  [bid_on_nft] checks neither sign nor size of the amount: every
    float of binary exponent at most 910 is converted and one invocation is
    submitted with the wei value attached, zero or negative for a zero or
    negative amount. *)
Theorem bid_submits_any_amount_in_range
    {World Abi : Type} (AUCTION_ABI : Abi) (wallet : Wallet World Abi)
    (token_id : Z) (bid_amount : PyFloat.float) (w : World) :
  PyFloat.valid bid_amount = true ->
  PyFloat.exponent_at_most 910 bid_amount = true ->
  exists wei,
    submitted (calls (bid_on_nft AUCTION_ABI wallet token_id bid_amount w))
      = [bid_invocation AUCTION_ABI token_id wei] /\
    value (bid_invocation AUCTION_ABI token_id wei) = Some wei /\
    (PyFloat.nonneg bid_amount = true -> 0 <= wei) /\
    (PyFloat.nonpos bid_amount = true -> wei <= 0).
Proof.
  intros Hv Hx.
  destruct (Wei.wei_of_defined bid_amount Hv Hx) as (wei & Hw & Hpos & Hneg).
  exists wei. rewrite bid_on_nft_shape, Hw.
  split; [apply submit_and_report_submitted|]. split; [reflexivity|].
  split; assumption.
Qed.

Lemma bid_submits_any_amount_in_range_witness :
  PyFloat.valid Lit.fm0_5 = true /\
  PyFloat.exponent_at_most 910 Lit.fm0_5 = true /\
  submitted (calls (bid_on_nft tt Demo.succeeding 1 Lit.fm0_5 tt))
    = [bid_invocation tt 1 (-500000000000000000)].
Proof.
  assert (H1 : PyFloat.valid Lit.fm0_5 = true) by (vm_compute; reflexivity).
  assert (H2 : PyFloat.exponent_at_most 910 Lit.fm0_5 = true) by reflexivity.
  split; [exact H1|]. split; [exact H2|].
  destruct (bid_submits_any_amount_in_range tt Demo.succeeding 1 Lit.fm0_5 tt H1 H2)
    as (wei & Hs & _).
  assert (Hr : submitted (calls (bid_on_nft tt Demo.succeeding 1 Lit.fm0_5 tt))
               = [bid_invocation tt 1 (-500000000000000000)])
    by (vm_compute; reflexivity).
  exact Hr.
Defined.

(* ===================================================================== *)
(** * Further properties of the three actions *)
(* ===================================================================== *)









(** X8.  The calls [bid_on_nft] and [finalize_nft_auction] make on the
    wallet: one submission and, only if it returned, one wait after it.
    Nothing is submitted again after a failure, and [bid_on_nft] makes no
    call at all when the amount does not convert. *)
Theorem bid_and_finalize_call_protocol
    {World Abi : Type} (AUCTION_ABI : Abi) (wallet : Wallet World Abi)
    (token_id : Z) (bid_amount : PyFloat.float) (w : World) :
  let bid := bid_on_nft AUCTION_ABI wallet token_id bid_amount w in
  let finalized := finalize_nft_auction AUCTION_ABI wallet token_id w in
  ((calls bid = [] /\ final bid = w /\ exists e, wei_of bid_amount = Raises e) \/
   (exists wei e, calls bid = [Invoked (bid_invocation AUCTION_ABI token_id wei) (Some e)]) \/
   (exists wei waited,
      calls bid = [Invoked (bid_invocation AUCTION_ABI token_id wei) None; Waited waited])) /\
  ((exists e, calls finalized
              = [Invoked (finalize_invocation AUCTION_ABI token_id) (Some e)]) \/
   (exists waited, calls finalized
                   = [Invoked (finalize_invocation AUCTION_ABI token_id) None;
                      Waited waited])) /\
  (length (submitted (calls bid)) <= 1)%nat /\
  length (submitted (calls finalized)) = 1%nat.
Proof.
  cbv zeta. rewrite bid_on_nft_shape, finalize_nft_auction_shape.
  split; [|split; [apply submit_and_report_calls|split]].
  - destruct (wei_of bid_amount) as [wei|e].
    + right.
      destruct (submit_and_report_calls wallet (bid_invocation AUCTION_ABI token_id wei)
                  (bid_placed token_id bid_amount) "Error placing bid: " w)
        as [[e H]|[r H]]; [left | right]; eauto.
    + left. cbn [calls final]. eauto.
  - destruct (wei_of bid_amount) as [wei|e].
    + now rewrite submit_and_report_submitted.
    + cbn. lia.
  - now rewrite submit_and_report_submitted.
Qed.

(** X9.  Every invocation any of the three actions submits goes to the
    fixed auction contract with the imported ABI; [start_nft_auction] and
    [finalize_nft_auction] never attach a value, [bid_on_nft] always does. *)
Theorem invocations_target_the_auction_contract
    {World Abi : Type} (AUCTION_ABI : Abi) (wallet : Wallet World Abi)
    (nft_contract_address : string) (token_id : Z) (starting_price : PyFloat.float)
    (duration : Z) (bid_amount : PyFloat.float) (w : World) :
  Forall (fun inv => contract_address inv = "0xA0f0b923532fdbcd85A11ccAED1362691C7931fA" /\
                     abi inv = AUCTION_ABI /\ value inv = None)
    (submitted (calls (start_nft_auction AUCTION_ABI wallet nft_contract_address token_id
                         starting_price duration w))) /\
  Forall (fun inv => contract_address inv = "0xA0f0b923532fdbcd85A11ccAED1362691C7931fA" /\
                     abi inv = AUCTION_ABI /\ value inv <> None)
    (submitted (calls (bid_on_nft AUCTION_ABI wallet token_id bid_amount w))) /\
  Forall (fun inv => contract_address inv = "0xA0f0b923532fdbcd85A11ccAED1362691C7931fA" /\
                     abi inv = AUCTION_ABI /\ value inv = None)
    (submitted (calls (finalize_nft_auction AUCTION_ABI wallet token_id w))).
Proof.
  rewrite start_nft_auction_shape, bid_on_nft_shape, finalize_nft_auction_shape.
  split; [|split].
  - destruct (wei_of starting_price); [rewrite submit_and_report_submitted|];
      repeat constructor.
  - destruct (wei_of bid_amount); [rewrite submit_and_report_submitted|];
      repeat constructor. discriminate.
  - rewrite submit_and_report_submitted. repeat constructor.
Qed.

(* ===================================================================== *)
(** * Properties of the console front end *)
(* ===================================================================== *)

Section ConsoleFacts.

Import Console.
Context {AgentWorld : Type}.
Implicit Types (ys : list (Chunk * AgentWorld)) (aw : AgentWorld).

(** A loop body that raises prints nothing first. *)
Lemma show_chunk_raises_silent (chunk : Chunk) (out : list Output) (e : PyExc) :
  show_chunk chunk = (out, Raises e) -> out = [].
Proof.
  unfold show_chunk.
  destruct (chunk !! "agent"); [destruct (first_content chunk "agent")|
    destruct (chunk !! "tools"); [destruct (first_content chunk "tools")|]];
    intros [= <- ?]; try reflexivity; discriminate.
Qed.

(** The loop over two stretches of chunks is the loop over the first, then,
    if that did not raise, the loop over the second. *)
Lemma show_chunks_app ys1 ys2 (ending : option PyExc) (after mid : AgentWorld) :
  show_chunks (ys1 ++ ys2) ending after =
  match show_chunks ys1 None mid with
  | (out1, Returns _, _) =>
      let '(out2, r, aw) := show_chunks ys2 ending after in (out1 ++ out2, r, aw)
  | (out1, Raises e, aw) => (out1, Raises e, aw)
  end.
Proof.
  induction ys1 as [|[chunk aw1] ys1 IH]; cbn [app show_chunks].
  - destruct (show_chunks ys2 ending after) as [[out2 r] aw]. reflexivity.
  - destruct (show_chunk chunk) as [out [[]|e]]; [|reflexivity].
    rewrite IH.
    destruct (show_chunks ys1 None mid) as [[out1 [[]|e]] aw]; [|reflexivity].
    destruct (show_chunks ys2 ending after) as [[out2 r] aw']. cbn.
    now rewrite app_assoc.
Qed.

Lemma show_chunks_readable ys (ending : option PyExc) (after : AgentWorld) :
  Forall (fun y => readable (fst y)) ys ->
  exists out,
    show_chunks ys ending after
    = (out, match ending with Some e => Raises e | None => Returns tt end, after) /\
    prompts out = 0%nat /\
    (length ys <= length out <= 2 * length ys)%nat /\
    (ys <> [] -> last out = Some (Printed separator)).
Proof.
  induction 1 as [|[chunk aw] ys [outc Hc] _ (out & Hs & Hp & Hlen & Hlast)];
    cbn [show_chunks].
  - exists []. repeat split; cbn; try lia. congruence.
  - cbn [fst] in Hc. rewrite Hc, Hs. exists (outc ++ out).
    assert (Hshape : (exists text, outc = [Printed text; Printed separator]) \/
                     outc = [Printed separator]).
    { revert Hc. unfold show_chunk.
      destruct (chunk !! "agent"); [destruct (first_content chunk "agent")|
        destruct (chunk !! "tools"); [destruct (first_content chunk "tools")|]];
        intros [= <-]; eauto. }
    split; [reflexivity|].
    destruct Hshape as [[text ->]| ->]; cbn [app prompts length];
      (split; [exact Hp|]); (split; [lia|]); intros _;
      (destruct ys as [|y ys];
       [ cbn in Hs; injection Hs as <-; reflexivity
       | rewrite !last_cons, (Hlast ltac:(discriminate)); reflexivity ]).
Qed.

End ConsoleFacts.

(** X10.  Over a stream whose chunks can all be read, [ask_agent] ends as
    the generator ends and leaves the agent as the generator left it; it
    prints no prompt, one line or two for each chunk, and, if there was a
    chunk at all, the separator last. *)
Theorem ask_agent_prints_each_readable_chunk
    {AgentWorld : Type}
    (stream : Console.StreamRequest -> AgentWorld -> Console.Stream AgentWorld)
    (question : string) (aw : AgentWorld) :
  let s := stream {| Console.messages := [question];
                     Console.thread_id := "my_first_agent" |} aw in
  Forall (fun y => Console.readable (fst y)) (Console.yields s) ->
  exists out,
    Console.ask_agent stream question aw
    = (out,
       match Console.ending s with Some e => Raises e | None => Returns tt end,
       Console.after s) /\
    Console.prompts out = 0%nat /\
    (length (Console.yields s) <= length out <= 2 * length (Console.yields s))%nat /\
    (Console.yields s <> [] -> last out = Some (Console.Printed Console.separator)).
Proof.
  cbv zeta. intros Hread. unfold Console.ask_agent.
  apply show_chunks_readable, Hread.
Qed.

Lemma ask_agent_prints_each_readable_chunk_witness :
  Forall (fun y => Console.readable (fst y))
    (Console.yields (Console.echo {| Console.messages := ["hello"];
                                     Console.thread_id := "my_first_agent" |} 0%nat)) /\
  Console.ask_agent Console.echo "hello" 0%nat
  = ([Console.Printed "hello"; Console.Printed Console.separator], Returns tt, 1%nat).
Proof.
  assert (H : Forall (fun y => Console.readable (fst y))
    (Console.yields (Console.echo {| Console.messages := ["hello"];
                                     Console.thread_id := "my_first_agent" |} 0%nat))).
  { repeat constructor. eexists. vm_compute. reflexivity. }
  split; [exact H|].
  destruct (ask_agent_prints_each_readable_chunk Console.echo "hello" 0%nat H)
    as (out & Hrun & _).
  rewrite Hrun. vm_compute in Hrun. injection Hrun as <-. reflexivity.
Defined.

(** X11.  A chunk whose entry has no first message stops [ask_agent],
    which has no handler: the exception of the subscript ([KeyError] for a
    missing ["messages"], [IndexError] for an empty list) is raised to the
    caller after the lines of the chunks before it; no separator is printed
    for the chunk and the chunks after it are never read. *)
Theorem unreadable_chunk_stops_ask_agent
    {AgentWorld : Type}
    (stream : Console.StreamRequest -> AgentWorld -> Console.Stream AgentWorld)
    (question : string) (aw : AgentWorld)
    (before : list (Console.Chunk * AgentWorld)) (chunk : Console.Chunk)
    (at_chunk : AgentWorld) (later : list (Console.Chunk * AgentWorld))
    (out : list Console.Output) (e : PyExc) :
  Console.yields (stream {| Console.messages := [question];
                            Console.thread_id := "my_first_agent" |} aw)
    = before ++ (chunk, at_chunk) :: later ->
  Forall (fun y => Console.readable (fst y)) before ->
  Console.show_chunk chunk = (out, Raises e) ->
  (e = Console.KeyError "messages" \/ e = Console.IndexError) /\
  exists printed,
    Console.ask_agent stream question aw = (printed, Raises e, at_chunk) /\
    Console.show_chunks before None at_chunk = (printed, Returns tt, at_chunk).
Proof.
  intros Hys Hread Hbad. split.
  - revert Hbad. unfold Console.show_chunk, Console.first_content.
    destruct (chunk !! "agent") as [entry|].
    + destruct (entry !! "messages") as [[|m ms]|]; intros [= _ <-]; auto.
    + destruct (chunk !! "tools") as [entry|]; [|discriminate].
      destruct (entry !! "messages") as [[|m ms]|]; intros [= _ <-]; auto.
  - destruct (show_chunks_readable before None at_chunk Hread) as (printed & Hb & _).
    exists printed. split; [|exact Hb].
    unfold Console.ask_agent. rewrite Hys, (show_chunks_app _ _ _ _ at_chunk), Hb.
    cbn [Console.show_chunks]. rewrite Hbad.
    rewrite (show_chunk_raises_silent _ _ _ Hbad), app_nil_r. reflexivity.
Qed.

Lemma unreadable_chunk_stops_ask_agent_witness :
  Console.ask_agent Console.stalling "hello" 0%nat
  = ([Console.Printed "thinking"; Console.Printed Console.separator],
     Raises Console.IndexError, 2%nat).
Proof.
  destruct (unreadable_chunk_stops_ask_agent Console.stalling "hello" 0%nat
              [({[ "agent" := {[ "messages" := [{| Console.content := "thinking" |}] ]} ]},
                1%nat)]
              {[ "tools" := {[ "messages" := [] ]} ]} 2%nat
              [({[ "agent" := {[ "messages" := [{| Console.content := "done" |}] ]} ]},
                3%nat)]
              [] Console.IndexError)
    as (_ & printed & Hrun & Hbefore).
  - reflexivity.
  - repeat constructor. eexists. vm_compute. reflexivity.
  - vm_compute. reflexivity.
  - rewrite Hrun. vm_compute in Hbefore. injection Hbefore as <-. reflexivity.
Defined.

(** ** The loop *)

Lemma lower_char_exit (c : ascii) :
  (Console.lower_char c = "e"%char <-> c = "e"%char \/ c = "E"%char) /\
  (Console.lower_char c = "x"%char <-> c = "x"%char \/ c = "X"%char) /\
  (Console.lower_char c = "i"%char <-> c = "i"%char \/ c = "I"%char) /\
  (Console.lower_char c = "t"%char <-> c = "t"%char \/ c = "T"%char).
Proof.
  destruct c as [[] [] [] [] [] [] [] []]; vm_compute;
    repeat split; try discriminate; auto; intros [H|H]; discriminate H.
Qed.

(** X12.  The loop quits on a line that is [exit] in any mix of upper and
    lower case, and on no other: the line is not stripped, so [exit] with a
    blank before or after it is a question for the agent. *)
Theorem exit_is_recognised_in_any_case_only (user_input : string) :
  String.eqb (Console.lower user_input) "exit" = true <->
  exists e x i t,
    user_input = String e (String x (String i (String t EmptyString))) /\
    (e = "e"%char \/ e = "E"%char) /\ (x = "x"%char \/ x = "X"%char) /\
    (i = "i"%char \/ i = "I"%char) /\ (t = "t"%char \/ t = "T"%char).
Proof.
  rewrite String.eqb_eq. split.
  - destruct user_input as [|e [|x [|i [|t [|c rest]]]]]; try discriminate.
    cbn [Console.lower]. intros [= He Hx Hi Ht].
    exists e, x, i, t. split; [reflexivity|].
    split; [apply (lower_char_exit e), He|].
    split; [apply (lower_char_exit x), Hx|].
    split; [apply (lower_char_exit i), Hi | apply (lower_char_exit t), Ht].
  - intros (e & x & i & t & -> & He & Hx & Hi & Ht). cbn [Console.lower].
    apply (lower_char_exit e) in He. apply (lower_char_exit x) in Hx.
    apply (lower_char_exit i) in Hi. apply (lower_char_exit t) in Ht.
    now rewrite He, Hx, Hi, Ht.
Qed.

Example exit_with_blanks_does_not_quit :
  String.eqb (Console.lower "exit ") "exit" = false /\
  String.eqb (Console.lower " exit") "exit" = false /\
  String.eqb (Console.lower "ExIt") "exit" = true.
Proof. vm_compute. repeat split. Qed.

Section ReplFacts.

Import Console.
Context {AgentWorld : Type}.
Variable stream : StreamRequest -> AgentWorld -> Stream AgentWorld.

Lemma prompts_app (a b : list Output) : prompts (a ++ b) = (prompts a + prompts b)%nat.
Proof. induction a as [|[line|p] a IH]; cbn; lia. Qed.

Lemma show_chunk_no_prompt (chunk : Chunk) : prompts (fst (show_chunk chunk)) = 0%nat.
Proof.
  unfold show_chunk.
  destruct (chunk !! "agent"); [destruct (first_content chunk "agent")|
    destruct (chunk !! "tools"); [destruct (first_content chunk "tools")|]];
    reflexivity.
Qed.

Lemma show_chunks_no_prompt (ys : list (Chunk * AgentWorld)) (ending : option PyExc)
    (after : AgentWorld) :
  prompts (fst (fst (show_chunks ys ending after))) = 0%nat.
Proof.
  induction ys as [|[chunk aw] ys IH]; cbn [show_chunks]; [reflexivity|].
  pose proof (show_chunk_no_prompt chunk) as Hc.
  destruct (show_chunk chunk) as [out [[]|e]]; cbn [fst] in *; [|exact Hc].
  destruct (show_chunks ys ending after) as [[out' r] aw']. cbn [fst] in *.
  rewrite prompts_app. lia.
Qed.

Lemma repl_invariant (stdin : list string) (aw : AgentWorld) :
  let r := repl stream stdin aw in
  Forall (fun q => String.eqb (lower q) "exit" = false) (asked r) /\
  match ended r with
  | Returns _ =>
      (exists q, stdin = asked r ++ q :: unread r /\
                 String.eqb (lower q) "exit" = true) /\
      prompts (printed r) = S (length (asked r))
  | Raises e =>
      stdin = asked r ++ unread r /\
      (length (asked r) <= prompts (printed r) <= S (length (asked r)))%nat
  end.
Proof.
  cbv zeta. revert aw. induction stdin as [|q rest IH]; intros aw; cbn [repl].
  - cbn. repeat split; try constructor; lia.
  - destruct (String.eqb (lower q) "exit") eqn:Hq.
    + cbn. split; [constructor|]. split; [|reflexivity]. exists q. auto.
    + pose proof (show_chunks_no_prompt
                    (yields (stream {| messages := [q]; thread_id := "my_first_agent" |} aw))
                    (ending (stream {| messages := [q]; thread_id := "my_first_agent" |} aw))
                    (after (stream {| messages := [q]; thread_id := "my_first_agent" |} aw)))
        as Hout.
      fold (ask_agent stream q aw) in Hout.
      destruct (ask_agent stream q aw) as [[out [[]|e]] aw']; cbn [fst] in Hout.
      * specialize (IH aw'). destruct IH as [Hasked Hend].
        cbn [asked ended unread printed prompts].
        split; [constructor; assumption|].
        rewrite prompts_app, Hout.
        destruct (ended (repl stream rest aw')).
        -- destruct Hend as [(q' & Hrest & Hq') Hp]. split.
           ++ exists q'. split; [|exact Hq']. cbn [app]. f_equal. exact Hrest.
           ++ cbn [length]. rewrite Hp. reflexivity.
        -- destruct Hend as [Hrest Hp]. split.
           ++ cbn [app]. f_equal. exact Hrest.
           ++ cbn [length]. lia.
      * cbn [asked ended unread printed prompts length].
        split; [repeat constructor; assumption|]. split; [reflexivity|]. lia.
Qed.

End ReplFacts.

(** X13.  The loop passes the lines of standard input to the agent in
    order, none of them an [exit] line, and stops at the first thing that
    ends it.  It ends normally only on an [exit] line, which is consumed and
    leaves the lines after it unread; otherwise it ends with an exception
    (end of input, or whatever [ask_agent] raised), having consumed exactly
    the lines it asked. *)
Theorem repl_reads_until_exit
    {AgentWorld : Type}
    (stream : Console.StreamRequest -> AgentWorld -> Console.Stream AgentWorld)
    (stdin : list string) (aw : AgentWorld) :
  let r := Console.repl stream stdin aw in
  Forall (fun q => String.eqb (Console.lower q) "exit" = false) (Console.asked r) /\
  match Console.ended r with
  | Returns _ =>
      exists q, stdin = Console.asked r ++ q :: Console.unread r /\
                String.eqb (Console.lower q) "exit" = true
  | Raises e => stdin = Console.asked r ++ Console.unread r
  end.
Proof.
  cbv zeta. destruct (repl_invariant stream stdin aw) as [Hasked Hend].
  split; [exact Hasked|].
  destruct (Console.ended (Console.repl stream stdin aw)); apply Hend.
Qed.

(** X14.  The program prints its banner first and then prompts once for
    every line it reads: one prompt more than the questions asked when the
    loop ends on [exit], and never fewer prompts than questions. *)
Theorem main_prompts_once_per_line
    {AgentWorld : Type}
    (stream : Console.StreamRequest -> AgentWorld -> Console.Stream AgentWorld)
    (stdin : list string) (aw : AgentWorld) :
  let r := Console.main stream stdin aw in
  (exists rest, Console.printed r
                = Console.Printed "Agent is ready! Type 'exit' to quit."
                  :: Console.Prompted Console.prompt :: rest) /\
  (length (Console.asked r) <= Console.prompts (Console.printed r)
   <= S (length (Console.asked r)))%nat /\
  (Console.ended r = Returns tt ->
   Console.prompts (Console.printed r) = S (length (Console.asked r))).
Proof.
  cbv zeta. unfold Console.main. cbn [Console.printed Console.asked Console.ended
                                      Console.prompts].
  destruct (repl_invariant stream stdin aw) as [_ Hend].
  split; [|split].
  - destruct stdin as [|q rest]; cbn [Console.repl]; [eauto|].
    destruct (String.eqb (Console.lower q) "exit"); [cbn; eauto|].
    destruct (Console.ask_agent stream q aw) as [[out [[]|e]] aw']; cbn; eauto.
  - destruct (Console.ended (Console.repl stream stdin aw)); [|apply Hend].
    destruct Hend as [_ ->]. lia.
  - intros Hok. rewrite Hok in Hend. apply Hend.
Qed.

Lemma main_prompts_once_per_line_witness :
  Console.ended (Console.main Console.echo ["hello"; "EXIT"; "later"] 0%nat) = Returns tt /\
  Console.prompts (Console.printed (Console.main Console.echo ["hello"; "EXIT"; "later"]
                                      0%nat))
  = S (length (Console.asked (Console.main Console.echo ["hello"; "EXIT"; "later"] 0%nat))).
Proof.
  assert (H : Console.ended (Console.main Console.echo ["hello"; "EXIT"; "later"] 0%nat)
              = Returns tt) by (vm_compute; reflexivity).
  split; [exact H|].
  exact (proj2 (proj2 (main_prompts_once_per_line Console.echo ["hello"; "EXIT"; "later"]
                         0%nat)) H).
Defined.

Example main_session :
  Console.main Console.echo ["hello"; "EXIT"; "later"] 0%nat
  = {| Console.printed :=
         [Console.Printed "Agent is ready! Type 'exit' to quit.";
          Console.Prompted Console.prompt;
          Console.Printed "hello"; Console.Printed Console.separator;
          Console.Prompted Console.prompt];
       Console.ended := Returns tt;
       Console.asked := ["hello"];
       Console.unread := ["later"];
       Console.agent_world := 1%nat |}.
Proof. vm_compute. reflexivity. Qed.

(* ===================================================================== *)
(** * The conversion keeps the order of amounts *)
(* ===================================================================== *)

(** A float of the format is normal, with a 53-bit mantissa, or has the
    least exponent. *)
Lemma valid_canonical (s : bool) (m : positive) (e : Z) :
  PyFloat.valid (S754_finite s m e) = true ->
  -1074 <= e <= 971 /\ Z.pos m < 2 ^ 53 /\ (e = -1074 \/ 2 ^ 52 <= Z.pos m).
Proof.
  unfold PyFloat.valid, valid_binary, bounded, canonical_mantissa, fexp, emin,
    PyFloat.prec, PyFloat.emax.
  intros H. apply andb_true_iff in H as [H1 H2].
  apply Z.eqb_eq in H1. apply Z.leb_le in H2.
  pose proof (Rounding.digits2_bounds m) as Hm.
  set (dm := Z.pos (digits2_pos m)) in *.
  assert (Hdm : dm <= 53) by lia.
  split; [lia|]. split.
  - assert (2 ^ dm <= 2 ^ 53) by (apply Z.pow_le_mono_r; lia). lia.
  - destruct (Z.eq_dec e (-1074)) as [|Hne]; [now left|right].
    assert (dm = 53) by lia. subst dm. rewrite H in Hm. exact (proj1 Hm).
Qed.

(** Two floats of the format with the same magnitude are the same. *)
Lemma canonical_unique (m1 m2 : positive) (e1 e2 : Z) :
  PyFloat.valid (S754_finite false m1 e1) = true ->
  PyFloat.valid (S754_finite false m2 e2) = true ->
  Z.pos m1 * 2 ^ (e1 + 1074) = Z.pos m2 * 2 ^ (e2 + 1074) ->
  m1 = m2 /\ e1 = e2.
Proof.
  intros H1 H2 Heq.
  apply valid_canonical in H1 as (He1 & Hu1 & Hn1).
  apply valid_canonical in H2 as (He2 & Hu2 & Hn2).
  assert (Hlt : forall (ma mb : positive) ea eb,
             -1074 <= ea -> ea < eb -> Z.pos ma < 2 ^ 53 -> 2 ^ 52 <= Z.pos mb ->
             Z.pos ma * 2 ^ (ea + 1074) < Z.pos mb * 2 ^ (eb + 1074)).
  { intros ma mb ea eb Hea Hab Hma Hmb.
    assert (Hp : 0 < 2 ^ (ea + 1074)) by (apply Z.pow_pos_nonneg; lia).
    assert (Hstep : 2 * 2 ^ (ea + 1074) <= 2 ^ (eb + 1074)).
    { rewrite <- Z.pow_succ_r by lia. apply Z.pow_le_mono_r; lia. }
    change (2 ^ 53) with (2 * 2 ^ 52) in Hma. nia. }
  destruct (Z.lt_trichotomy e1 e2) as [Hc|[Hc|Hc]].
  - destruct Hn2 as [->|Hn2]; [lia|].
    specialize (Hlt m1 m2 e1 e2 ltac:(lia) Hc Hu1 Hn2). lia.
  - subst e2. split; [|reflexivity].
    assert (Hp : 0 < 2 ^ (e1 + 1074)) by (apply Z.pow_pos_nonneg; lia).
    apply Z.mul_cancel_r in Heq; [congruence | lia].
  - destruct Hn1 as [->|Hn1]; [lia|].
    specialize (Hlt m2 m1 e2 e1 ltac:(lia) Hc Hu2 Hn1). lia.
Qed.

(** The product of a positive float with [10**18], on the integer scale
    of [2^-1067]: the exact product [P], its binade [K] and the rounded
    product [R]. *)
Lemma mul_int_scaled (m : positive) (e : Z) :
  PyFloat.valid (S754_finite false m e) = true ->
  exists (m' : positive) (e' K : Z),
    PyFloat.mul_int (S754_finite false m e) (10 ^ 18) =
      Returns (if e' <=? 971 then S754_finite false m' e' else S754_infinity false) /\
    0 <= K <= e' + 1067 /\
    2 ^ (K + 52) <= Z.pos m * Z.pos PyFloat.ten18_mantissa * 2 ^ (e + 1074) < 2 ^ (K + 53) /\
    2 * Z.abs (Z.pos m' * 2 ^ (e' + 1067)
               - Z.pos m * Z.pos PyFloat.ten18_mantissa * 2 ^ (e + 1074)) <= 2 ^ K.
Proof.
  intros Hv. apply Wei.valid_finite in Hv as [He Hdm].
  unfold PyFloat.mul_int. rewrite Wei.of_int_ten18. cbn [SFmul xorb].
  set (M := (m * PyFloat.ten18_mantissa)%positive).
  pose proof (Rounding.digits2_bounds M) as HM.
  pose proof Wei.ten18_bits as Ht.
  assert (HMz : Z.pos M = Z.pos m * Z.pos PyFloat.ten18_mantissa) by reflexivity.
  assert (Hlow : Z.pos PyFloat.ten18_mantissa <= Z.pos M).
  { rewrite HMz. pose proof (Pos2Z.is_pos m).
    pose proof (Pos2Z.is_pos PyFloat.ten18_mantissa). nia. }
  set (d := Z.pos (digits2_pos M)) in *.
  assert (Hd53 : 53 <= d).
  { destruct (Z.le_gt_cases 53 d) as [|Hlt]; [assumption|].
    assert (2 ^ d <= 2 ^ 52) by (apply Z.pow_le_mono_r; lia). lia. }
  destruct (Rounding.binary_round_aux_normal false M (e + 7) Hd53 ltac:(lia))
    as (m' & e' & Hr & He' & _ & Herr).
  fold d in He', Herr.
  exists m', e', (d + e + 1021). unfold PyFloat.prec, PyFloat.emax. rewrite Hr.
  split; [reflexivity|]. split; [lia|].
  rewrite <- HMz.
  assert (Hs : 0 < 2 ^ (e + 1074)) by (apply Z.pow_pos_nonneg; lia).
  assert (H52 : 2 ^ (d + e + 1021 + 52) = 2 ^ (d - 1) * 2 ^ (e + 1074)).
  { rewrite <- Z.pow_add_r by lia. f_equal. lia. }
  assert (H53 : 2 ^ (d + e + 1021 + 53) = 2 ^ d * 2 ^ (e + 1074)).
  { rewrite <- Z.pow_add_r by lia. f_equal. lia. }
  assert (HK : 2 ^ (d + e + 1021) = 2 ^ (d - 53) * 2 ^ (e + 1074)).
  { rewrite <- Z.pow_add_r by lia. f_equal. lia. }
  assert (HR : Z.pos m' * 2 ^ (e' + 1067)
               = Z.pos m' * 2 ^ (e' - (e + 7)) * 2 ^ (e + 1074)).
  { rewrite <- Z.mul_assoc, <- Z.pow_add_r by lia. do 2 f_equal. lia. }
  split; [rewrite H52, H53; nia|].
  rewrite HR, HK, <- Z.mul_sub_distr_r, Z.abs_mul, (Z.abs_eq (2 ^ (e + 1074))) by lia.
  nia.
Qed.

(** Rounding to nearest keeps the order: on one scale, with [R] a multiple
    of [2^K] within half of [2^K] of [P], for [P] in the binade
    [[2^(K+52), 2^(K+53))]. *)
Lemma nearest_keeps_order (Pa Pb Ra Rb Ka Kb ja jb : Z) :
  0 <= Ka -> 0 <= Kb ->
  2 ^ (Ka + 52) <= Pa < 2 ^ (Ka + 53) ->
  2 ^ (Kb + 52) <= Pb < 2 ^ (Kb + 53) ->
  Ra = ja * 2 ^ Ka -> Rb = jb * 2 ^ Kb ->
  2 * Z.abs (Ra - Pa) <= 2 ^ Ka ->
  2 * Z.abs (Rb - Pb) <= 2 ^ Kb ->
  Pa < Pb -> Ra <= Rb.
Proof.
  intros HKa HKb HPa HPb HRa HRb Hea Heb Hlt.
  assert (Ua : 0 < 2 ^ Ka) by (apply Z.pow_pos_nonneg; lia).
  assert (Ub : 0 < 2 ^ Kb) by (apply Z.pow_pos_nonneg; lia).
  assert (Ha52 : 2 ^ (Ka + 52) = 2 ^ 52 * 2 ^ Ka)
    by (rewrite Z.pow_add_r by lia; lia).
  assert (Ha53 : 2 ^ (Ka + 53) = 2 ^ 53 * 2 ^ Ka)
    by (rewrite Z.pow_add_r by lia; lia).
  assert (Hb52 : 2 ^ (Kb + 52) = 2 ^ 52 * 2 ^ Kb)
    by (rewrite Z.pow_add_r by lia; lia).
  assert (Hb53 : 2 ^ (Kb + 53) = 2 ^ 53 * 2 ^ Kb)
    by (rewrite Z.pow_add_r by lia; lia).
  assert (Hja : ja <= 2 ^ 53).
  { assert (ja * 2 ^ Ka < (2 ^ 53 + 1) * 2 ^ Ka) by lia.
    apply Z.mul_lt_mono_pos_r in H; lia. }
  assert (Hjb : 2 ^ 52 <= jb).
  { assert ((2 ^ 52 - 1) * 2 ^ Kb < jb * 2 ^ Kb) by lia.
    apply Z.mul_lt_mono_pos_r in H; lia. }
  destruct (Z.lt_trichotomy Ka Kb) as [Hc|[Hc|Hc]].
  - assert (2 ^ (Ka + 53) <= 2 ^ (Kb + 52)) by (apply Z.pow_le_mono_r; lia).
    nia.
  - subst Kb.
    destruct (Z.le_gt_cases ja jb) as [|Hgt]; [nia|].
    assert (Hstep : (jb + 1) * 2 ^ Ka <= ja * 2 ^ Ka) by (apply Z.mul_le_mono_nonneg_r; lia).
    lia.
  - assert (2 ^ (Kb + 53) <= 2 ^ (Ka + 52)) by (apply Z.pow_le_mono_r; lia).
    lia.
Qed.

Lemma shiftl_scaled (m e : Z) :
  0 <= e + 1067 -> Z.shiftl m e = m * 2 ^ (e + 1067) / 2 ^ 1067.
Proof.
  intros He. destruct (Z.le_gt_cases 0 e) as [Hpos|Hneg].
  - rewrite Z.shiftl_mul_pow2, Z.pow_add_r, Z.mul_assoc, Z.div_mul by lia.
    reflexivity.
  - replace e with (- - e) at 1 by lia.
    rewrite Z.shiftl_opp_r, Z.shiftr_div_pow2 by lia.
    replace (2 ^ 1067) with (2 ^ (- e) * 2 ^ (e + 1067)).
    + rewrite Z.div_mul_cancel_r; [reflexivity | | ];
        apply Z.pow_nonzero; lia.
    + rewrite <- Z.pow_add_r by lia. f_equal. lia.
Qed.

(** The conversion keeps the order of two positive amounts. *)
Lemma wei_of_monotone_pos (ma mb : positive) (ea eb wa wb : Z) :
  PyFloat.valid (S754_finite false ma ea) = true ->
  PyFloat.valid (S754_finite false mb eb) = true ->
  wei_of (S754_finite false ma ea) = Returns wa ->
  wei_of (S754_finite false mb eb) = Returns wb ->
  Z.pos ma * 2 ^ (ea + 1074) <= Z.pos mb * 2 ^ (eb + 1074) ->
  wa <= wb.
Proof.
  intros Hva Hvb Hwa Hwb Hle.
  destruct (Z.le_gt_cases (Z.pos mb * 2 ^ (eb + 1074)) (Z.pos ma * 2 ^ (ea + 1074)))
    as [Hge|Hlt].
  { destruct (canonical_unique ma mb ea eb Hva Hvb ltac:(lia)) as [-> ->].
    rewrite Hwa in Hwb. injection Hwb as ->. lia. }
  destruct (mul_int_scaled ma ea Hva) as (ma' & ea' & Ka & Hma & HKa & HPa & Hea).
  destruct (mul_int_scaled mb eb Hvb) as (mb' & eb' & Kb & Hmb & HKb & HPb & Heb).
  unfold wei_of in Hwa, Hwb. rewrite Hma in Hwa. rewrite Hmb in Hwb.
  destruct (ea' <=? 971); [|discriminate Hwa].
  destruct (eb' <=? 971); [|discriminate Hwb].
  cbn [PyFloat.to_int cond_Zopp] in Hwa, Hwb.
  injection Hwa as <-. injection Hwb as <-.
  rewrite !shiftl_scaled by lia.
  apply Z.div_le_mono; [lia|].
  pose proof (Pos2Z.is_pos PyFloat.ten18_mantissa) as Hc.
  apply (nearest_keeps_order
           (Z.pos ma * Z.pos PyFloat.ten18_mantissa * 2 ^ (ea + 1074))
           (Z.pos mb * Z.pos PyFloat.ten18_mantissa * 2 ^ (eb + 1074))
           _ _ Ka Kb
           (Z.pos ma' * 2 ^ (ea' + 1067 - Ka)) (Z.pos mb' * 2 ^ (eb' + 1067 - Kb)));
    try lia; try assumption.
  - rewrite <- Z.mul_assoc, <- Z.pow_add_r by lia. do 2 f_equal. lia.
  - rewrite <- Z.mul_assoc, <- Z.pow_add_r by lia. do 2 f_equal. lia.
  - nia.
Qed.


Lemma magnitude_scaled (m : positive) (e : Z) :
  -1074 <= e ->
  (inject_Z (Z.pos m) * 2 ^ e * 2 ^ 1074 == inject_Z (Z.pos m * 2 ^ (e + 1074)))%Q.
Proof.
  intros He. rewrite inject_Z_mult, Zpower_Qpower by lia.
  change (inject_Z 2) with 2%Q.
  rewrite (Qpower_plus 2 e 1074) by discriminate. ring.
Qed.

Lemma magnitude_positive (m : positive) (e : Z) : (0 < inject_Z (Z.pos m) * 2 ^ e)%Q.
Proof.
  apply Qmult_lt_0_compat; [|apply Wei.two_power_pos].
  unfold Qlt. cbn. lia.
Qed.

Lemma neg_magnitude (m : positive) (e : Z) :
  (inject_Z (cond_Zopp true (Z.pos m)) * 2 ^ e == - (inject_Z (Z.pos m) * 2 ^ e))%Q.
Proof. cbn [cond_Zopp]. rewrite inject_Z_opp. ring. Qed.

Lemma magnitude_order (ma mb : positive) (ea eb : Z) :
  -1074 <= ea -> -1074 <= eb ->
  (inject_Z (Z.pos ma) * 2 ^ ea <= inject_Z (Z.pos mb) * 2 ^ eb)%Q ->
  Z.pos ma * 2 ^ (ea + 1074) <= Z.pos mb * 2 ^ (eb + 1074).
Proof.
  intros Ha Hb Hle.
  apply (Qmult_le_compat_r _ _ (2 ^ 1074)) in Hle;
    [|apply Qlt_le_weak, Wei.two_power_pos].
  rewrite !magnitude_scaled in Hle by assumption.
  now rewrite Zle_Qle.
Qed.

Lemma wei_of_sign (s : bool) (m : positive) (e wei : Z) :
  PyFloat.valid (S754_finite s m e) = true ->
  wei_of (S754_finite s m e) = Returns wei ->
  if s then wei <= 0 else 0 <= wei.
Proof.
  intros Hv Hw.
  destruct (Wei.wei_of_finite s m e Hv) as (m' & e' & _ & _ & [(_ & _ & Hw')|(_ & Hw')]);
    rewrite Hw' in Hw; [|discriminate Hw].
  injection Hw as <-. pose proof (Wei.shiftl_pos_nonneg m' e').
  destruct s; cbn [cond_Zopp]; lia.
Qed.

(** X15.  The conversion keeps the order of amounts: of two amounts that
    both convert, the one that is no larger in ETH is no larger in wei.  A
    higher bid is never attached as a lower value. *)
Theorem conversion_keeps_order (a b : PyFloat.float) (wa wb : Z) :
  PyFloat.valid a = true -> PyFloat.valid b = true ->
  wei_of a = Returns wa -> wei_of b = Returns wb ->
  (PyFloat.to_Q a <= PyFloat.to_Q b)%Q ->
  wa <= wb.
Proof.
  intros Hva Hvb Hwa Hwb Hle.
  assert (Hinf : forall s, wei_of (S754_infinity s)
                 = Raises (OverflowError "cannot convert float infinity to integer")).
  { intros s. unfold wei_of, PyFloat.mul_int. rewrite Wei.of_int_ten18. reflexivity. }
  assert (Hnan : wei_of S754_nan
                 = Raises (ValueError "cannot convert float NaN to integer")).
  { unfold wei_of, PyFloat.mul_int. rewrite Wei.of_int_ten18. reflexivity. }
  assert (Hflip : forall m e w, wei_of (S754_finite true m e) = Returns w ->
                                wei_of (S754_finite false m e) = Returns (- w)).
  { intros m e w Hw.
    change (S754_finite true m e) with (SFopp (S754_finite false m e)) in Hw.
    rewrite wei_of_negated in Hw.
    destruct (wei_of (S754_finite false m e)) as [w'|]; [|discriminate Hw].
    injection Hw as <-. f_equal. lia. }
  destruct a as [sa|sa| |sa ma ea];
    [ rewrite Wei.wei_of_zero in Hwa; injection Hwa as <-
    | rewrite Hinf in Hwa; discriminate Hwa
    | rewrite Hnan in Hwa; discriminate Hwa | ];
  (destruct b as [sb|sb| |sb mb eb];
    [ rewrite Wei.wei_of_zero in Hwb; injection Hwb as <-
    | rewrite Hinf in Hwb; discriminate Hwb
    | rewrite Hnan in Hwb; discriminate Hwb | ]);
  cbn [PyFloat.to_Q] in Hle; rewrite ?neg_magnitude in Hle; cbn [cond_Zopp] in Hle.
  - lia.
  - pose proof (wei_of_sign sb mb eb wb Hvb Hwb) as Hs.
    destruct sb; [|exact Hs]. rewrite neg_magnitude in Hle.
    pose proof (magnitude_positive mb eb) as Hp. exfalso. lra.
  - pose proof (wei_of_sign sa ma ea wa Hva Hwa) as Hs.
    destruct sa; [exact Hs|]. cbn [cond_Zopp] in Hle.
    pose proof (magnitude_positive ma ea) as Hp. exfalso. lra.
  - pose proof (valid_canonical _ _ _ Hva) as (Hea & _).
    pose proof (valid_canonical _ _ _ Hvb) as (Heb & _).
    pose proof (wei_of_sign sa ma ea wa Hva Hwa) as Hsa.
    pose proof (wei_of_sign sb mb eb wb Hvb Hwb) as Hsb.
    pose proof (magnitude_positive ma ea) as Hpa.
    pose proof (magnitude_positive mb eb) as Hpb.
    destruct sa, sb; rewrite ?neg_magnitude in Hle; cbn [cond_Zopp] in Hle.
    + (* both negative: the magnitudes are in the other order *)
      apply Hflip in Hwa, Hwb.
      enough (- wb <= - wa) by lia.
      apply (wei_of_monotone_pos mb ma eb ea); try assumption.
      apply magnitude_order; try lia. lra.
    + lia.
    + exfalso. lra.
    + apply (wei_of_monotone_pos ma mb ea eb); try assumption.
      apply magnitude_order; try lia. exact Hle.
Qed.

Lemma conversion_keeps_order_witness :
  PyFloat.valid Lit.f0_1 = true /\ PyFloat.valid Lit.f0_5 = true /\
  wei_of Lit.f0_1 = Returns 100000000000000000 /\
  wei_of Lit.f0_5 = Returns 500000000000000000 /\
  (PyFloat.to_Q Lit.f0_1 <= PyFloat.to_Q Lit.f0_5)%Q /\
  100000000000000000 <= 500000000000000000.
Proof.
  assert (H1 : PyFloat.valid Lit.f0_1 = true) by (vm_compute; reflexivity).
  assert (H2 : PyFloat.valid Lit.f0_5 = true) by (vm_compute; reflexivity).
  assert (H3 : wei_of Lit.f0_1 = Returns 100000000000000000) by (vm_compute; reflexivity).
  assert (H4 : wei_of Lit.f0_5 = Returns 500000000000000000) by (vm_compute; reflexivity).
  assert (H5 : (PyFloat.to_Q Lit.f0_1 <= PyFloat.to_Q Lit.f0_5)%Q)
    by (vm_compute; intros H; discriminate H).
  repeat (split; [assumption|]).
  exact (conversion_keeps_order Lit.f0_1 Lit.f0_5 _ _ H1 H2 H3 H4 H5).
Defined.
